(** * Charon: the client engine and the session receive loop

    A shallow embedding of [client.cpp] (the RPC result handler, the
    per-type notification state, [Client::Impl] and [Client]) and of the
    receive loop of [xmppclient.cpp], followed by the properties that the
    specification states about them.

    Threads are modelled by schedules: a blocking wait takes the list of
    wake-ups it goes through, each with the stanzas that the receiving
    thread handled while the lock was released and with the readings of
    the steady clock.  A schedule that ends while the call is still
    waiting yields [Blocked]; the theorems on results say under which
    schedules a call returns or throws. *)

From Stdlib Require Import ZArith Lia.
From stdpp Require Import gmap strings list fin_maps.

Local Open Scope string_scope.
Local Open Scope Z_scope.

(** ** Values shared by all components *)

(** [Json::Value] of jsoncpp, without floating-point numbers.  The members
    of an object are kept in the order of their keys, as [std::map] keeps
    them, so that equality of values is equality of terms. *)
#[warnings="-register-all"]
Inductive Json : Type :=
  | JNull
  | JBool (b : bool)
  | JInt (z : Z)
  | JString (s : string)
  | JArray (elems : list Json)
  | JObject (members : list (string * Json)).

Fixpoint Json_eq_dec (a b : Json) {struct a} : {a = b} + {a <> b}.
Proof.
  decide equality.
  - apply Bool.bool_dec.
  - apply Z.eq_dec.
  - apply String.string_dec.
  - apply (List.list_eq_dec Json_eq_dec).
  - apply List.list_eq_dec. intros [k1 v1] [k2 v2].
    destruct (String.string_dec k1 k2); [|right; congruence].
    destruct (Json_eq_dec v1 v2); [left|right]; congruence.
Defined.

#[global] Instance Json_eq_decision : EqDecision Json := Json_eq_dec.

(** Points of [std::chrono::steady_clock] and durations, in milliseconds. *)
Definition TimePoint : Type := Z.

(** [DEFAULT_TIMEOUT = std::chrono::seconds (3)] *)
Definition DEFAULT_TIMEOUT : TimePoint := 3000.

(** [WAITFORCHANGE_TIMEOUT = std::chrono::seconds (5)] *)
Definition WAITFORCHANGE_TIMEOUT : TimePoint := 5000.

(** [WAITING_SLEEP = std::chrono::milliseconds (1)] *)
Definition WAITING_SLEEP : TimePoint := 1.

(** [jsonrpc::Errors::ERROR_RPC_INTERNAL_ERROR] of libjson-rpc-cpp; the
    theorems below never look at its value. *)
Definition ERROR_RPC_INTERNAL_ERROR : Z := -32603.

(** Modelled from the spec: [RpcServer::Error] is declared in
    rpcserver.hpp, which is not among the sources.  A Backend Error has a
    numeric code, a message and optional structured data; client.cpp
    constructs it from a code, from a code and a message, and from all
    three, so the message and the data default to the empty string and
    the null value. *)
Module Error.
Record t : Type := mk { code : Z; message : string; data : Json }.

Definition mk1 (c : Z) : t := mk c "" JNull.
Definition mk2 (c : Z) (msg : string) : t := mk c msg JNull.

#[global] Instance eq_dec : EqDecision t.
Proof. solve_decision. Defined.
End Error.

(** How a call of the program ends.  [Returns] is a normal return,
    [Throws] a thrown [RpcServer::Error], [Aborts] a failed [CHECK] or a
    [LOG (FATAL)], and [Blocked] says that the schedule given to the
    model ended while the call was still inside a wait. *)
Inductive Result (A : Type) : Type :=
  | Returns (a : A)
  | Throws (e : Error.t)
  | Aborts
  | Blocked.
Arguments Returns {A} a.
Arguments Throws {A} e.
Arguments Aborts {A}.
Arguments Blocked {A}.

(** ** The parts of gloox that the client uses *)

Module gloox.

(** [gloox::JID]: the bare and the full form are strings built from the
    three parts, and [operator==] compares the full forms. *)
Module JID.
Record t : Type := mk { username : string; server : string; resource : string }.

Definition bare (j : t) : string :=
  if decide (username j = "") then server j
  else username j +:+ "@" +:+ server j.

Definition full (j : t) : string :=
  if decide (resource j = "") then bare j
  else bare j +:+ "/" +:+ resource j.

Definition bareJID (j : t) : t := mk (username j) (server j) "".

Definition eqb (a b : t) : bool := bool_decide (full a = full b).
End JID.

(** [gloox::StanzaError] *)
Inductive StanzaError : Type :=
  | StanzaErrorBadRequest | StanzaErrorConflict
  | StanzaErrorFeatureNotImplemented | StanzaErrorForbidden
  | StanzaErrorGone | StanzaErrorInternalServerError
  | StanzaErrorItemNotFound | StanzaErrorJidMalformed
  | StanzaErrorNotAcceptable | StanzaErrorNotAllowed
  | StanzaErrorNotAuthorized | StanzaErrorNotModified
  | StanzaErrorPaymentRequired | StanzaErrorRecipientUnavailable
  | StanzaErrorRedirect | StanzaErrorRegistrationRequired
  | StanzaErrorRemoteServerNotFound | StanzaErrorRemoteServerTimeout
  | StanzaErrorResourceConstraint | StanzaErrorServiceUnavailable
  | StanzaErrorSubscribtionRequired | StanzaErrorUndefinedCondition
  | StanzaErrorUnexpectedRequest | StanzaErrorUnknownSender
  | StanzaErrorUndefined.

#[global] Instance StanzaError_eq_dec : EqDecision StanzaError.
Proof. solve_decision. Defined.

(** [gloox::ConnectionError] *)
Inductive ConnectionError : Type :=
  | ConnNoError | ConnStreamError | ConnStreamVersionError
  | ConnStreamClosed | ConnProxyAuthRequired | ConnProxyAuthFailed
  | ConnProxyNoSupportedAuth | ConnIoError | ConnParseError
  | ConnConnectionRefused | ConnDnsError | ConnOutOfMemory
  | ConnNoSupportedAuth | ConnTlsFailed | ConnTlsNotAvailable
  | ConnCompressionFailed | ConnAuthenticationFailed
  | ConnUserDisconnected | ConnNotConnected.

#[global] Instance ConnectionError_eq_dec : EqDecision ConnectionError.
Proof. solve_decision. Defined.

End gloox.

(** ** Stanza extensions *)

(** Modelled from the spec: [RpcResponse] is declared in stanzas.hpp,
    which is not among the sources.  A response is a success with a
    result or a failure with a code, a message and optional data, and it
    has a validity check; the record has the six accessors that the
    result handler calls. *)
Module RpcResponse.
Record t : Type := mk {
  IsValid : bool;
  IsSuccess : bool;
  GetResult : Json;
  GetErrorCode : Z;
  GetErrorMessage : string;
  GetErrorData : Json
}.

Definition success (r : Json) : t := mk true true r 0 "" JNull.
Definition failure (c : Z) (m : string) (d : Json) : t :=
  mk true false JNull c m d.
Definition invalid : t := mk false false JNull 0 "" JNull.
End RpcResponse.

(** Modelled from the spec: [SupportedNotifications] is declared in
    stanzas.hpp, which is not among the sources.  It holds the address of
    the pubsub service and a map from the name of a notification type to
    the name of its node. *)
Module SupportedNotifications.
Record t : Type := mk {
  GetService : string;
  GetNotifications : gmap string string
}.
End SupportedNotifications.

(** Modelled from the spec: [NotificationUpdate] is declared in
    stanzas.hpp, which is not among the sources.  An update has the name
    of its notification type and a state, and a validity check; it is
    parsed from an [update] tag. *)
Module NotificationUpdate.
Record t : Type := mk { IsValid : bool; GetType : string; GetState : Json }.
End NotificationUpdate.

Module IQ.
(** [gloox::IQ::IqType] *)
Inductive IqType : Type := Get | Set_ | Result | Error | Invalid.

#[global] Instance IqType_eq_dec : EqDecision IqType.
Proof. solve_decision. Defined.

(** An incoming IQ: [error ()] is the stanza error when there is one (a
    null pointer otherwise), [findExtension<RpcResponse>] the response
    extension when one is attached. *)
Record t : Type := mk {
  subtype : IqType;
  from : gloox.JID.t;
  error : option gloox.StanzaError;
  findRpcResponse : option RpcResponse.t
}.
End IQ.

Module Presence.
(** [gloox::Presence::PresenceType] *)
Inductive PresenceType : Type :=
  | Available | Chat | Away | DND | XA | Unavailable | Probe | Error
  | Invalid.

#[global] Instance PresenceType_eq_dec : EqDecision PresenceType.
Proof. solve_decision. Defined.

(** An incoming presence with the two extensions the client looks for. *)
Record t : Type := mk {
  subtype : PresenceType;
  from : gloox.JID.t;
  findPong : option unit;
  findSupportedNotifications : option SupportedNotifications.t
}.
End Presence.

(** What the client hands to [gloox::Client::send]. *)
Inductive Stanza : Type :=
  | PingStanza (to : gloox.JID.t)
  | PresenceStanza (type : Presence.PresenceType) (to : gloox.JID.t)
  | RpcRequestStanza (to : gloox.JID.t) (method : string) (params : Json).

(** ** Timed condition variables and ongoing RPC calls *)

(** [TimedConditionVariable]: the end time is fixed at construction;
    [notified] counts the calls of [Notify]. *)
Module TimedConditionVariable.
Record t : Type := mk { endTime : TimePoint; notified : nat }.

(** The constructor, run when the clock shows [now]. *)
Definition new (now timeout : TimePoint) : t := mk (now + timeout) 0.

Definition Notify (c : t) : t := mk (endTime c) (S (notified c)).

(** [Clock::now () >= endTime], with [now] the reading of the clock. *)
Definition IsTimedOut (c : t) (now : TimePoint) : bool := endTime c <=? now.
End TimedConditionVariable.

Module OngoingRpcCall.
Inductive State : Type :=
  | WAITING | UNAVAILABLE | RESPONSE_SUCCESS | RESPONSE_ERROR.

#[global] Instance State_eq_dec : EqDecision State.
Proof. solve_decision. Defined.

Record t : Type := mk {
  cv : TimedConditionVariable.t;
  state : State;
  serverJid : gloox.JID.t;
  result : Json;
  error : Error.t
}.

(** The constructor: [cv(t), state(State::WAITING), error(0)]; the JID
    and the result are default-constructed. *)
Definition new (now timeout : TimePoint) : t :=
  mk (TimedConditionVariable.new now timeout) WAITING
     (gloox.JID.mk "" "" "") JNull (Error.mk1 0).

Definition set_serverJid (j : gloox.JID.t) (c : t) : t :=
  mk (cv c) (state c) j (result c) (error c).
End OngoingRpcCall.

Module RpcResultHandler.
Import OngoingRpcCall.

(** [RpcResultHandler::handleIqID], on the call the handler shares with
    the thread that issued it.  The tests are made in the order of the
    source: the state of the call, a service-unavailable error, the
    subtype, the extension and its validity. *)
Definition handleIqID (call : OngoingRpcCall.t) (iq : IQ.t) : OngoingRpcCall.t :=
  if negb (bool_decide (state call = WAITING)) then call
  else if bool_decide (IQ.subtype iq = IQ.Error)
            && bool_decide (IQ.error iq = Some gloox.StanzaErrorServiceUnavailable)
  then mk (TimedConditionVariable.Notify (cv call)) UNAVAILABLE
          (serverJid call) (result call) (error call)
  else if negb (bool_decide (IQ.subtype iq = IQ.Result)) then call
  else match IQ.findRpcResponse iq with
       | None => call
       | Some ext =>
           if negb (RpcResponse.IsValid ext) then call
           else if RpcResponse.IsSuccess ext
           then mk (TimedConditionVariable.Notify (cv call)) RESPONSE_SUCCESS
                   (serverJid call) (RpcResponse.GetResult ext) (error call)
           else mk (TimedConditionVariable.Notify (cv call)) RESPONSE_ERROR
                   (serverJid call) (result call)
                   (Error.mk (RpcResponse.GetErrorCode ext)
                             (RpcResponse.GetErrorMessage ext)
                             (RpcResponse.GetErrorData ext))
       end.

(** [RpcResultHandler::handleIq], called for an IQ without id: the IQ
    is not handled. *)
Definition handleIq (iq : IQ.t) : bool := false.

(** The IQs that the receiving thread hands to the handler, in order. *)
Definition handleAll (call : OngoingRpcCall.t) (iqs : list IQ.t) : OngoingRpcCall.t :=
  foldl handleIqID call iqs.
End RpcResultHandler.

(** One turn of the loop in which [ForwardMethod] waits for its call: the
    IQs handled before the thread holds the lock of the call again, and
    the clock when [IsTimedOut] is asked after the wait. *)
Module CallRound.
Record t : Type := mk { arrivals : list IQ.t; clock : TimePoint }.
End CallRound.

(** The loop at the end of [Client::Impl::ForwardMethod]. *)
Fixpoint awaitCall (call : OngoingRpcCall.t) (rounds : list CallRound.t)
  : Result Json :=
  match rounds with
  | [] => Blocked
  | r :: rest =>
      let call' := RpcResultHandler.handleAll call (CallRound.arrivals r) in
      match OngoingRpcCall.state call' with
      | OngoingRpcCall.RESPONSE_SUCCESS => Returns (OngoingRpcCall.result call')
      | OngoingRpcCall.RESPONSE_ERROR => Throws (OngoingRpcCall.error call')
      | OngoingRpcCall.UNAVAILABLE =>
          Throws (Error.mk2 ERROR_RPC_INTERNAL_ERROR
                            "selected server is unavailable")
      | OngoingRpcCall.WAITING =>
          if TimedConditionVariable.IsTimedOut (OngoingRpcCall.cv call')
                                               (CallRound.clock r)
          then Throws (Error.mk2 ERROR_RPC_INTERNAL_ERROR
                         ("timeout waiting for result from "
                          +:+ gloox.JID.full (OngoingRpcCall.serverJid call')))
          else awaitCall call' rest
      end
  end.

(** ** Notification types and their client-side state *)

(** Modelled from the spec: [NotificationType] is declared in
    notifications.hpp, which is not among the sources.  A notification
    type has a name and a function from a full state to its state id;
    these are the two members that client.cpp calls. *)
Module NotificationType.
Record t : Type := mk { GetType : string; ExtractStateId : Json -> Json }.
End NotificationType.

(** A pubsub item as the item callback reads it: [findChild ("update")]
    and the [NotificationUpdate] parsed from that tag. *)
Module Item.
Record t : Type := mk { findUpdate : option NotificationUpdate.t }.
End Item.

Module NotificationState.
(** The members [notification], [hasState] and [state]; [notified]
    counts the calls of [cv.notify_all]. *)
Record t : Type := mk {
  notification : NotificationType.t;
  hasState : bool;
  state : Json;
  notified : nat
}.

(** The constructor: [hasState = false] and a default-constructed
    (null) [state]. *)
Definition new (n : NotificationType.t) : t := mk n false JNull 0.

(** The callback returned by [GetItemCallback], applied to an item. *)
Definition ItemCallback (s : t) (item : Item.t) : t :=
  match Item.findUpdate item with
  | None => s
  | Some upd =>
      if negb (NotificationUpdate.IsValid upd) then s
      else if negb (bool_decide (NotificationUpdate.GetType upd
                                 = NotificationType.GetType (notification s)))
      then s
      else mk (notification s) true (NotificationUpdate.GetState upd)
              (S (notified s))
  end.

(** What happens while [cv.wait_for] has released the lock: the items
    for which the callback runs, and the time after which a notification
    or a spurious wake-up ends the wait, if one does before the bound. *)
Record Wait : Type := mkWait { items : list Item.t; wakeup : option TimePoint }.

(** The time spent in [cv.wait_for (lock, bound)]. *)
Definition wait_for (bound : TimePoint) (w : Wait) : TimePoint :=
  match wakeup w with
  | None => bound
  | Some d => Z.min (Z.max 0 d) bound
  end.

(** Whether a call went through the wait, and for how long. *)
Inductive Waited : Type := Immediately | After (d : TimePoint).

(** [NotificationState::WaitForChange]: the value it ends with, whether
    it waited, and the state of the instance afterwards. *)
Definition WaitForChange (s : t) (known : Json) (w : Wait)
  : Result Json * Waited * t :=
  let stateId := NotificationType.ExtractStateId (notification s) (state s) in
  if hasState s && bool_decide (known <> stateId)
  then (Returns (state s), Immediately, s)
  else
    let s' := foldl ItemCallback s (items w) in
    (Returns (state s'), After (wait_for WAITFORCHANGE_TIMEOUT w), s').
End NotificationState.

(** ** The pubsub wrapper, as far as the client engine drives it *)

(** Modelled from the spec: [PubSubImpl] is declared in pubsub.hpp, which
    is not among the sources.  An instance is bound to one service, and
    [SubscribeToNode] subscribes to a node with an item callback; the
    record keeps the service and the subscriptions made, each a node with
    the notification type whose callback it feeds. *)
Module PubSubImpl.
Record t : Type := mk { service : string; subscribed : list (string * string) }.

Definition new (srv : string) : t := mk srv [].

Definition SubscribeToNode (node type : string) (p : t) : t :=
  mk (service p) (subscribed p ++ [(node, type)]).
End PubSubImpl.

(** Modelled from the spec: [Client] is declared in client.hpp, which is
    not among the sources.  These are the members that [Client::Impl]
    reads through its reference [client]: the address of the server as
    given to the constructor, the timeout of pings and calls, and the
    registered notification types by name. *)
Module ClientRef.
Record t : Type := mk {
  serverJid : string;
  timeout : TimePoint;
  notifications : gmap string NotificationType.t
}.
End ClientRef.

(** One turn of the loop of [TryEnsureFullServerJid]: the clock when
    [Wait] asks [IsTimedOut], the presences handled while the wait has
    released the lock (none when [Wait] does not wait), and the clock when
    [IsTimedOut] is asked after the wait. *)
Module PingRound.
Record t : Type := mk {
  before : TimePoint;
  presences : list Presence.t;
  after : TimePoint
}.
End PingRound.

(** ** Client::Impl *)
Module Impl.

(** The ping that [ongoingPing] points to, with the number of
    [shared_ptr]s that keep it alive: the weak pointer can be locked as
    long as that number is not zero. *)
Record SharedPing : Type := mkPing {
  ping : TimedConditionVariable.t;
  use_count : nat
}.

(** The members of [Client::Impl], with the pubsub instance of the
    [XmppClient] base and the stanzas handed to [gloox::Client::send].
    A thread of [subscribeCalls] is given by the node it subscribes to
    and the notification type whose callback it passes. *)
Record t : Type := mk {
  fullServerJid : gloox.JID.t;
  subscribeCalls : list (string * string);
  ongoingPing : option SharedPing;
  states : gmap string NotificationState.t;
  pubsub : option PubSubImpl.t;
  sent : list Stanza
}.

Definition set_fullServerJid (j : gloox.JID.t) (i : t) : t :=
  mk j (subscribeCalls i) (ongoingPing i) (states i) (pubsub i) (sent i).
Definition set_subscribeCalls (c : list (string * string)) (i : t) : t :=
  mk (fullServerJid i) c (ongoingPing i) (states i) (pubsub i) (sent i).
Definition set_ongoingPing (p : option SharedPing) (i : t) : t :=
  mk (fullServerJid i) (subscribeCalls i) p (states i) (pubsub i) (sent i).
Definition set_states (s : gmap string NotificationState.t) (i : t) : t :=
  mk (fullServerJid i) (subscribeCalls i) (ongoingPing i) s (pubsub i) (sent i).
Definition set_pubsub (p : option PubSubImpl.t) (i : t) : t :=
  mk (fullServerJid i) (subscribeCalls i) (ongoingPing i) (states i) p (sent i).

(** [c.send (stanza)] inside [RunWithClient] *)
Definition send (s : Stanza) (i : t) : t :=
  mk (fullServerJid i) (subscribeCalls i) (ongoingPing i) (states i)
     (pubsub i) (sent i ++ [s]).

(** [ongoingPing.lock ()] *)
Definition lockPing (i : t) : option SharedPing :=
  match ongoingPing i with
  | Some p => if Nat.eqb (use_count p) 0 then None else Some p
  | None => None
  end.

Definition HasFullServerJid (i : t) : bool :=
  negb (bool_decide (gloox.JID.resource (fullServerJid i) = "")).

(** [FinishSubscriptions]: every thread is joined, so its call of
    [SubscribeToNode] on the current pubsub instance is done, and the
    vector is cleared. *)
Definition FinishSubscriptions (i : t) : t :=
  let subscribe p :=
    foldl (fun q c => PubSubImpl.SubscribeToNode (fst c) (snd c) q) p
          (subscribeCalls i) in
  set_subscribeCalls [] (set_pubsub (subscribe <$> pubsub i) i).

(** Modelled from the spec: [AddPubSub] is a member of [XmppClient]
    whose definition is not among the sources.  The wrapper is created
    anew for the given service and replaces the existing one. *)
Definition AddPubSub (service : string) (i : t) : t :=
  set_pubsub (Some (PubSubImpl.new service)) i.

(** The loop of [handlePresence] over [states] that is run before the
    lock is taken: [true] when it returns from the handler, which it
    does at the first entry that the presence does not support.
    [std::map] goes through its entries in the order of the keys and
    [map_to_list] in an order of its own; the order decides which entry
    is logged, not whether the loop returns ([lacksSupport_false],
    [lacksSupport_none], [lacksSupport_missing]). *)
Fixpoint lacksSupport (sn : option SupportedNotifications.t)
    (entries : list (string * NotificationState.t)) : bool :=
  match entries with
  | [] => false
  | entry :: rest =>
      match sn with
      | None => true
      | Some s =>
          match SupportedNotifications.GetNotifications s !! fst entry with
          | None => true
          | Some _ => lacksSupport sn rest
          end
      end
  end.

(** The loop of [handlePresence] that starts one subscribing thread for
    each entry of [states], in the order in which the entries are given;
    [CHECK (mit != n.end ())] aborts. *)
Fixpoint startSubscriptions (n : gmap string string)
    (entries : list (string * NotificationState.t)) (i : t) : Result t :=
  match entries with
  | [] => Returns i
  | entry :: rest =>
      match n !! fst entry with
      | None => Aborts
      | Some node =>
          startSubscriptions n rest
            (set_subscribeCalls (subscribeCalls i ++ [(node, fst entry)]) i)
      end
  end.

(** The body of [if (!HasFullServerJid ())] in [handlePresence]. *)
Definition selectServer (p : Presence.t) (i : t) : Result t :=
  let i1 := set_fullServerJid (Presence.from p) i in
  let i2 := send (PresenceStanza Presence.Available (Presence.from p)) i1 in
  if negb (bool_decide (states i2 = ∅)) then
    match Presence.findSupportedNotifications p with
    | None => Aborts
    | Some sn =>
        let i3 := FinishSubscriptions i2 in
        let i4 := AddPubSub (SupportedNotifications.GetService sn) i3 in
        startSubscriptions (SupportedNotifications.GetNotifications sn)
                           (map_to_list (states i4)) i4
    end
  else Returns i2.

(** [ping->Notify ()] on the ongoing ping, if there is one. *)
Definition notifyPing (i : t) : t :=
  match lockPing i with
  | Some p =>
      set_ongoingPing
        (Some (mkPing (TimedConditionVariable.Notify (ping p)) (use_count p))) i
  | None => i
  end.

(** [Client::Impl::handlePresence] *)
Definition handlePresence (i : t) (p : Presence.t) : Result t :=
  match Presence.subtype p with
  | Presence.Available =>
      match Presence.findPong p with
      | None => Returns i
      | Some _ =>
          if lacksSupport (Presence.findSupportedNotifications p)
                          (map_to_list (states i))
          then Returns i
          else
            let selected :=
              if negb (HasFullServerJid i) then selectServer p i
              else Returns i in
            match selected with
            | Returns i' => Returns (notifyPing i')
            | r => r
            end
      end
  | Presence.Unavailable =>
      if gloox.JID.eqb (Presence.from p) (fullServerJid i)
      then Returns (set_fullServerJid (gloox.JID.bareJID (fullServerJid i)) i)
      else Returns i
  | _ => Returns i
  end.

(** The presences that the receiving thread hands to the handler, in
    order; an abort ends the process. *)
Fixpoint handlePresences (i : t) (ps : list Presence.t) : Result t :=
  match ps with
  | [] => Returns i
  | p :: rest =>
      match handlePresence i p with
      | Returns i' => handlePresences i' rest
      | r => r
      end
  end.

(** The local [shared_ptr] to the ping goes away when
    [TryEnsureFullServerJid] returns; the ping dies with its last owner. *)
Definition releasePing (i : t) : t :=
  match ongoingPing i with
  | Some p =>
      if (use_count p <=? 1)%nat then set_ongoingPing None i
      else set_ongoingPing (Some (mkPing (ping p) (Nat.pred (use_count p)))) i
  | None => i
  end.

(** The loop [while (true)] of [TryEnsureFullServerJid] on a ping that
    ends at [endTime]: [ping->Wait (lock)] waits only when the ping has
    not timed out, the presences are handled during that wait, and the
    time-out is tested before the JID. *)
Fixpoint waitForPong (endTime : TimePoint) (rounds : list PingRound.t) (i : t)
  : Result unit * t :=
  match rounds with
  | [] => (Blocked, i)
  | r :: rest =>
      let handled :=
        if endTime <=? PingRound.before r then Returns i
        else handlePresences i (PingRound.presences r) in
      match handled with
      | Returns i' =>
          if endTime <=? PingRound.after r then (Returns tt, i')
          else if HasFullServerJid i' then (Returns tt, i')
          else waitForPong endTime rest i'
      | _ => (Aborts, i)
      end
  end.

Section WithJIDParser.

(** The constructor of [gloox::JID] from a string. *)
Context (parseJID : string -> gloox.JID.t).

(** The constructor [Impl (client, jid, pwd)]: one state for each
    notification of the client. *)
Definition new (client : ClientRef.t) : t :=
  mk (parseJID (ClientRef.serverJid client)) [] None
     (NotificationState.new <$> ClientRef.notifications client) None [].

(** [TryEnsureFullServerJid], entered when the clock shows [now]. *)
Definition TryEnsureFullServerJid (client : ClientRef.t) (now : TimePoint)
    (rounds : list PingRound.t) (i : t) : Result unit * t :=
  if HasFullServerJid i then (Returns tt, i)
  else
    let started :=
      match lockPing i with
      | Some p =>
          (ping p, set_ongoingPing (Some (mkPing (ping p) (S (use_count p)))) i)
      | None =>
          let c := TimedConditionVariable.new now (ClientRef.timeout client) in
          (c, set_ongoingPing (Some (mkPing c 1))
                (send (PingStanza (parseJID (ClientRef.serverJid client))) i))
      end in
    match waitForPong (TimedConditionVariable.endTime (fst started)) rounds
                      (snd started) with
    | (Returns tt, i') => (Returns tt, releasePing i')
    | r => r
    end.

(** [GetServerResource] *)
Definition GetServerResource (client : ClientRef.t) (now : TimePoint)
    (rounds : list PingRound.t) (i : t) : Result string * t :=
  match TryEnsureFullServerJid client now rounds i with
  | (Returns tt, i1) =>
      let i2 := FinishSubscriptions i1 in
      (Returns (gloox.JID.resource (fullServerJid i2)), i2)
  | (Throws e, i1) => (Throws e, i1)
  | (Aborts, i1) => (Aborts, i1)
  | (Blocked, i1) => (Blocked, i1)
  end.

(** The schedule of one call of [ForwardMethod]: the clock on entry,
    the turns of the discovery wait, the clock when the call is
    constructed and the turns of the wait for the reply. *)
Record Schedule : Type := mkSchedule {
  entered : TimePoint;
  discovery : list PingRound.t;
  issued : TimePoint;
  replies : list CallRound.t
}.

Definition noServerError (client : ClientRef.t) : Error.t :=
  Error.mk2 ERROR_RPC_INTERNAL_ERROR
    ("could not discover full server JID for " +:+ ClientRef.serverJid client).

(** [Client::Impl::ForwardMethod] *)
Definition ForwardMethod (client : ClientRef.t) (method : string)
    (params : Json) (sch : Schedule) (i : t) : Result Json * t :=
  match TryEnsureFullServerJid client (entered sch) (discovery sch) i with
  | (Returns tt, i1) =>
      if negb (HasFullServerJid i1) then (Throws (noServerError client), i1)
      else
        let to := fullServerJid i1 in
        let call :=
          OngoingRpcCall.set_serverJid to
            (OngoingRpcCall.new (issued sch) (ClientRef.timeout client)) in
        let i2 := send (RpcRequestStanza to method params) i1 in
        (awaitCall call (replies sch), i2)
  | (Throws e, i1) => (Throws e, i1)
  | (Aborts, i1) => (Aborts, i1)
  | (Blocked, i1) => (Blocked, i1)
  end.

(** [Client::Impl::WaitForChange] *)
Definition WaitForChange (client : ClientRef.t) (type : string)
    (known : Json) (now : TimePoint) (rounds : list PingRound.t)
    (w : NotificationState.Wait) (i : t) : Result Json * t :=
  match TryEnsureFullServerJid client now rounds i with
  | (Returns tt, i1) =>
      if negb (HasFullServerJid i1) then (Throws (noServerError client), i1)
      else
        match states i1 !! type with
        | None => (Aborts, i1)
        | Some s =>
            let r := NotificationState.WaitForChange s known w in
            (fst (fst r), set_states (<[type := snd r]> (states i1)) i1)
        end
  | (Throws e, i1) => (Throws e, i1)
  | (Aborts, i1) => (Aborts, i1)
  | (Blocked, i1) => (Blocked, i1)
  end.

End WithJIDParser.

End Impl.

(** ** Client *)
Module Client.

(** The members of [Client]: those that the implementation refers to,
    and [impl], null until [Connect]. *)
Record t : Type := mk { members : ClientRef.t; impl : option Impl.t }.

(** [Client (srv)]: the constructor sets the default timeout. *)
Definition new (srv : string) : t :=
  mk (ClientRef.mk srv DEFAULT_TIMEOUT ∅) None.

Definition notifications (c : t) : gmap string NotificationType.t :=
  ClientRef.notifications (members c).

(** [Client::AddNotification]: [emplace] leaves the map as it is when
    the key is there already, and the second [CHECK] then fails. *)
Definition AddNotification (n : NotificationType.t) (c : t) : Result t :=
  match impl c with
  | Some _ => Aborts
  | None =>
      let type := NotificationType.GetType n in
      match notifications c !! type with
      | Some _ => Aborts
      | None =>
          Returns (mk (ClientRef.mk (ClientRef.serverJid (members c))
                                    (ClientRef.timeout (members c))
                                    (<[type := n]> (notifications c)))
                      (impl c))
      end
  end.

Section WithJIDParser.
Context (parseJID : string -> gloox.JID.t).

(** [Client::Connect], up to the session's own [Connect]. *)
Definition Connect (c : t) : t :=
  mk (members c) (Some (Impl.new parseJID (members c))).

(** [Client::Disconnect] *)
Definition Disconnect (c : t) : t :=
  match impl c with
  | None => c
  | Some _ => mk (members c) None
  end.

(** [Client::ForwardMethod] *)
Definition ForwardMethod (method : string) (params : Json)
    (sch : Impl.Schedule) (c : t) : Result Json * t :=
  match impl c with
  | None => (Aborts, c)
  | Some i =>
      let r := Impl.ForwardMethod parseJID (members c) method params sch i in
      (fst r, mk (members c) (Some (snd r)))
  end.

(** [Client::GetServerResource] *)
Definition GetServerResource (now : TimePoint) (rounds : list PingRound.t)
    (c : t) : Result string * t :=
  match impl c with
  | None => (Aborts, c)
  | Some i =>
      let r := Impl.GetServerResource parseJID (members c) now rounds i in
      (fst r, mk (members c) (Some (snd r)))
  end.

(** [Client::WaitForChange] *)
Definition WaitForChange (type : string) (known : Json) (now : TimePoint)
    (rounds : list PingRound.t) (w : NotificationState.Wait) (c : t)
  : Result Json * t :=
  match impl c with
  | None => (Aborts, c)
  | Some i =>
      match notifications c !! type with
      | None => (Aborts, c)
      | Some _ =>
          let r := Impl.WaitForChange parseJID (members c) type known
                                      now rounds w i in
          (fst r, mk (members c) (Some (snd r)))
      end
  end.
End WithJIDParser.

End Client.

(** ** The receive loop of XmppClient *)
Module XmppClient.
Import gloox.

(** [XmppClient::Receive], given the result of [client.recv (0)]. *)
Definition Receive (res : ConnectionError) : Result bool :=
  match res with
  | ConnNotConnected | ConnStreamClosed => Returns false
  | ConnNoError => Returns true
  | _ => Aborts
  end.

(** One turn of the receive loop: the flag [stopLoop] when the loop tests
    it, and what [client.recv (0)] yields if [Receive] is called. *)
Record Turn : Type := mkTurn { stopLoop : bool; recv : ConnectionError }.

(** The body of the thread started by [Connect]; it returns the number
    of calls of [Receive] made. *)
Fixpoint recvLoop (turns : list Turn) : Result nat :=
  match turns with
  | [] => Blocked
  | turn :: rest =>
      if stopLoop turn then Returns 0%nat
      else match Receive (recv turn) with
           | Returns true =>
               match recvLoop rest with
               | Returns n => Returns (S n)
               | r => r
               end
           | Returns false => Returns 1%nat
           | _ => Aborts
           end
  end.

(** [XmppClient::onDisconnect] *)
Definition onDisconnect (err : ConnectionError) : Result unit :=
  match err with
  | ConnStreamClosed | ConnUserDisconnected => Returns tt
  | _ => Aborts
  end.
End XmppClient.

(** ** Vocabulary of the statements *)

(** An IQ that reports the stanza error service-unavailable. *)
Definition serviceUnavailable (iq : IQ.t) : Prop :=
  IQ.subtype iq = IQ.Error
  /\ IQ.error iq = Some gloox.StanzaErrorServiceUnavailable.

(** An IQ of subtype [Result] that carries the valid response [ext]. *)
Definition carries (iq : IQ.t) (ext : RpcResponse.t) : Prop :=
  IQ.subtype iq = IQ.Result
  /\ IQ.findRpcResponse iq = Some ext
  /\ RpcResponse.IsValid ext = true.

(** An IQ that is no service-unavailable error and is not a [Result]
    with a valid response either. *)
Definition ignored (iq : IQ.t) : Prop :=
  ~ serviceUnavailable iq
  /\ (IQ.subtype iq <> IQ.Result
      \/ IQ.findRpcResponse iq = None
      \/ exists ext, IQ.findRpcResponse iq = Some ext
                     /\ RpcResponse.IsValid ext = false).

(** A turn of the wait for a reply is quiet when the call still waits
    after its arrivals and its clock is before the end time. *)
Definition quiet (call : OngoingRpcCall.t) (r : CallRound.t) : Prop :=
  OngoingRpcCall.state (RpcResultHandler.handleAll call (CallRound.arrivals r))
    = OngoingRpcCall.WAITING
  /\ CallRound.clock r
     < TimedConditionVariable.endTime (OngoingRpcCall.cv call).

(** The error that [ForwardMethod] throws when the wait for the reply of
    the server [to] times out. *)
Definition timeoutError (to : gloox.JID.t) : Error.t :=
  Error.mk2 ERROR_RPC_INTERNAL_ERROR
    ("timeout waiting for result from " +:+ gloox.JID.full to).

(** The error that [ForwardMethod] throws for a call found [UNAVAILABLE]. *)
Definition unavailableError : Error.t :=
  Error.mk2 ERROR_RPC_INTERNAL_ERROR "selected server is unavailable".

(** The call that [ForwardMethod] constructs for the server [to]. *)
Definition issuedCall (client : ClientRef.t) (sch : Impl.Schedule)
    (to : gloox.JID.t) : OngoingRpcCall.t :=
  OngoingRpcCall.set_serverJid to
    (OngoingRpcCall.new (Impl.issued sch) (ClientRef.timeout client)).

(** An available presence with a pong that supports every notification
    type for which the implementation holds a state. *)
Definition accepted (i : Impl.t) (p : Presence.t) : Prop :=
  Presence.subtype p = Presence.Available
  /\ Presence.findPong p = Some tt
  /\ Impl.lacksSupport (Presence.findSupportedNotifications p)
                       (map_to_list (Impl.states i)) = false.

#[global] Instance accepted_dec (i : Impl.t) (p : Presence.t) :
  Decision (accepted i p).
Proof. unfold accepted. apply _. Defined.

(** Stanzas that carry an RPC request, and stanzas that carry a ping. *)
Definition isRequest (s : Stanza) : bool :=
  match s with
  | RpcRequestStanza _ _ _ => true
  | _ => false
  end.

Definition isPing (s : Stanza) : bool :=
  match s with
  | PingStanza _ => true
  | _ => false
  end.

(** Two values of [ongoingPing] that agree on whether there is a ping, on
    its end time and on the number of its owners. *)
Definition samePing (a b : option Impl.SharedPing) : Prop :=
  match a, b with
  | Some p, Some q =>
      Impl.use_count p = Impl.use_count q
      /\ TimedConditionVariable.endTime (Impl.ping p)
         = TimedConditionVariable.endTime (Impl.ping q)
  | None, None => True
  | _, _ => False
  end.

(** The state that the item callback of the type [n] takes from an item,
    if it takes one. *)
Definition acceptedState (n : NotificationType.t) (item : Item.t) : option Json :=
  match Item.findUpdate item with
  | Some upd =>
      if NotificationUpdate.IsValid upd
         && bool_decide (NotificationUpdate.GetType upd = NotificationType.GetType n)
      then Some (NotificationUpdate.GetState upd)
      else None
  | None => None
  end.

(** The end time of the ping that a discovery entered at [now] waits
    for: that of the ping under way, or that of a new one. *)
Definition pingEnd (client : ClientRef.t) (now : TimePoint) (i : Impl.t)
  : TimePoint :=
  match Impl.lockPing i with
  | Some p => TimedConditionVariable.endTime (Impl.ping p)
  | None => now + ClientRef.timeout client
  end.

(** ** Data for the examples *)

Module Examples.

(** A parser for addresses without user name and resource. *)
Definition parse (s : string) : gloox.JID.t := gloox.JID.mk "" s "".

Definition server : gloox.JID.t := gloox.JID.mk "" "gsp.example" "srv".
Definition other : gloox.JID.t := gloox.JID.mk "" "gsp.example" "other".

Definition client : ClientRef.t := ClientRef.mk "gsp.example" DEFAULT_TIMEOUT ∅.

(** An implementation without notifications: fresh, and with [server]
    selected. *)
Definition fresh : Impl.t := Impl.new parse client.
Definition selected : Impl.t := Impl.set_fullServerJid server fresh.

(** Replies to a call. *)
Definition boom : IQ.t :=
  IQ.mk IQ.Result server None
        (Some (RpcResponse.failure (-32000) "boom" (JString "details"))).
Definition hello : IQ.t :=
  IQ.mk IQ.Result server None (Some (RpcResponse.success (JString "hello"))).
Definition gone : IQ.t :=
  IQ.mk IQ.Error server (Some gloox.StanzaErrorServiceUnavailable) None.
Definition garbled : IQ.t :=
  IQ.mk IQ.Result server None (Some RpcResponse.invalid).
Definition bare_result : IQ.t := IQ.mk IQ.Result server None None.

(** A call issued at time 0 with the default timeout. *)
Definition call : OngoingRpcCall.t :=
  OngoingRpcCall.set_serverJid server (OngoingRpcCall.new 0 DEFAULT_TIMEOUT).

(** Schedules of [ForwardMethod]: the reply arrives after 10 ms. *)
Definition replied (iq : IQ.t) : Impl.Schedule :=
  Impl.mkSchedule 0 [] 0 [CallRound.mk [iq] 10].

(** Nothing but noise arrives, and the wait wakes up at its end time. *)
Definition unanswered : Impl.Schedule :=
  Impl.mkSchedule 0 [] 0
    [CallRound.mk [garbled] 500; CallRound.mk [bare_result] 3000].

(** Nobody answers the ping. *)
Definition undiscovered : Impl.Schedule :=
  Impl.mkSchedule 0 [PingRound.mk 0 [] 3000] 3000 [].

(** A notification type whose state id is the member [id] of the state,
    a client that has registered it, and the implementation of that
    client. *)
Definition stateType : NotificationType.t :=
  NotificationType.mk "state"
    (fun s => match s with
              | JObject (("id", v) :: _) => v
              | _ => JNull
              end).
Definition notifying : ClientRef.t :=
  ClientRef.mk "gsp.example" DEFAULT_TIMEOUT {[ "state" := stateType ]}.
Definition subscriber : Impl.t := Impl.new parse notifying.

(** Presences: pongs with and without the notifications the client
    wants, and the server going away. *)
Definition pong (from : gloox.JID.t) (nodes : gmap string string) : Presence.t :=
  Presence.mk Presence.Available from (Some tt)
              (Some (SupportedNotifications.mk "pubsub.gsp.example" nodes)).
Definition plain_pong (from : gloox.JID.t) : Presence.t :=
  Presence.mk Presence.Available from (Some tt) None.
Definition no_pong (from : gloox.JID.t) : Presence.t :=
  Presence.mk Presence.Available from None None.
Definition leaves (from : gloox.JID.t) : Presence.t :=
  Presence.mk Presence.Unavailable from None None.

(** States of the type [state] and the items that carry them; an item
    for another type; a state that has received [state1]. *)
Definition state1 : Json := JObject [("id", JInt 1); ("data", JString "a")].
Definition state2 : Json := JObject [("id", JInt 2); ("data", JString "b")].
Definition update (type : string) (st : Json) : Item.t :=
  Item.mk (Some (NotificationUpdate.mk true type st)).
Definition empty_item : Item.t := Item.mk None.
Definition cached : NotificationState.t :=
  NotificationState.ItemCallback (NotificationState.new stateType)
                                 (update "state" state1).

(** Waits: nothing happens; an update arrives after 20 ms. *)
Definition silence : NotificationState.Wait := NotificationState.mkWait [] None.
Definition updated : NotificationState.Wait :=
  NotificationState.mkWait [update "state" state2] (Some 20).

(** An implementation with a ping under way, owned by one waiting
    thread, and one that has selected [server] and started the thread
    that subscribes to the node of [state]. *)
Definition pinging : Impl.t :=
  Impl.set_ongoingPing
    (Some (Impl.mkPing (TimedConditionVariable.new 0 DEFAULT_TIMEOUT) 1)) fresh.
Definition subscribing : Impl.t :=
  Impl.mk server [("node1", "state")] None (Impl.states subscriber)
          (Some (PubSubImpl.new "pubsub.gsp.example")) [].

Definition silent : PingRound.t := PingRound.mk 0 [] 3000.

(** Only a server without notifications answers the ping of the client
    that has registered [state]. *)
Definition unsupported : Impl.Schedule :=
  Impl.mkSchedule 0 [PingRound.mk 0 [plain_pong server] 100; silent] 3000 [].

End Examples.

(** * Properties *)

(** ** The result handler and the wait for a reply *)

Section CallProperties.
Import OngoingRpcCall RpcResultHandler.

(** A call that has left [WAITING] is never touched again. *)
Lemma handleIqID_not_waiting (call : OngoingRpcCall.t) (iq : IQ.t) :
  state call <> WAITING -> handleIqID call iq = call.
Proof.
  intros Hs. unfold handleIqID.
  rewrite bool_decide_eq_false_2 by exact Hs. reflexivity.
Qed.

Lemma handleAll_not_waiting (iqs : list IQ.t) (call : OngoingRpcCall.t) :
  state call <> WAITING -> handleAll call iqs = call.
Proof.
  unfold handleAll. induction iqs as [|iq iqs IH]; intros Hs; simpl.
  - reflexivity.
  - rewrite handleIqID_not_waiting by exact Hs. now apply IH.
Qed.

(** The handler either leaves the call as it is or moves it out of
    [WAITING]. *)
Lemma handleIqID_cases (call : OngoingRpcCall.t) (iq : IQ.t) :
  handleIqID call iq = call \/ state (handleIqID call iq) <> WAITING.
Proof.
  unfold handleIqID.
  repeat (case_bool_decide || case_match || simpl);
    try (left; reflexivity); right; discriminate.
Qed.

(** If the call still waits after a batch of IQs, none has changed it. *)
Lemma handleAll_still_waiting (iqs : list IQ.t) (call : OngoingRpcCall.t) :
  state (handleAll call iqs) = WAITING -> handleAll call iqs = call.
Proof.
  unfold handleAll. revert call.
  induction iqs as [|iq iqs IH]; intros call Hs; simpl in *.
  - reflexivity.
  - destruct (handleIqID_cases call iq) as [Heq|Hne].
    + rewrite Heq in *. now apply IH.
    + fold (handleAll (handleIqID call iq) iqs) in Hs.
      rewrite handleAll_not_waiting in Hs by exact Hne. contradiction.
Qed.

Lemma handleAll_app (call : OngoingRpcCall.t) (xs ys : list IQ.t) :
  handleAll call (xs ++ ys) = handleAll (handleAll call xs) ys.
Proof. unfold handleAll. apply foldl_app. Qed.

Lemma awaitCall_quiet (call : OngoingRpcCall.t) (qs rest : list CallRound.t) :
  Forall (quiet call) qs -> awaitCall call (qs ++ rest) = awaitCall call rest.
Proof.
  induction 1 as [|r qs [Hw Hc] _ IH]; cbn [awaitCall app]; [reflexivity|].
  rewrite Hw. rewrite (handleAll_still_waiting _ _ Hw).
  unfold TimedConditionVariable.IsTimedOut.
  destruct (Z.leb_spec (TimedConditionVariable.endTime (cv call))
                       (CallRound.clock r)); [lia|exact IH].
Qed.

(** Once the call has left [WAITING], the wait ends at its next turn
    with what the state says. *)
Lemma awaitCall_resolved (call : OngoingRpcCall.t) (r : CallRound.t)
    (rest : list CallRound.t) :
  state call <> WAITING ->
  awaitCall call (r :: rest) =
    match state call with
    | RESPONSE_SUCCESS => Returns (result call)
    | RESPONSE_ERROR => Throws (error call)
    | _ => Throws (Error.mk2 ERROR_RPC_INTERNAL_ERROR
                             "selected server is unavailable")
    end.
Proof.
  intros Hs. cbn [awaitCall]. rewrite handleAll_not_waiting by exact Hs.
  destruct (state call); congruence.
Qed.

End CallProperties.

(** ** The presence handler *)

Section PresenceProperties.
Import Impl.

Lemma lacksSupport_false (sn : option SupportedNotifications.t)
    (entries : list (string * NotificationState.t)) :
  lacksSupport sn entries = false ->
  forall e, e ∈ entries ->
    exists s, sn = Some s
              /\ is_Some (SupportedNotifications.GetNotifications s !! fst e).
Proof.
  induction entries as [|x xs IH]; simpl; intros Hl e He.
  - inversion He.
  - destruct sn as [s|]; [|discriminate].
    destruct (SupportedNotifications.GetNotifications s !! x.1) eqn:Hx;
      [|discriminate].
    apply elem_of_cons in He as [->|He].
    + exists s. rewrite Hx. eauto.
    + now apply IH.
Qed.

Lemma lacksSupport_none (entries : list (string * NotificationState.t)) :
  entries <> [] -> lacksSupport None entries = true.
Proof. destruct entries; [congruence|reflexivity]. Qed.

Lemma lacksSupport_missing (s : SupportedNotifications.t)
    (entries : list (string * NotificationState.t)) (e : string * NotificationState.t) :
  e ∈ entries ->
  SupportedNotifications.GetNotifications s !! fst e = None ->
  lacksSupport (Some s) entries = true.
Proof.
  induction entries as [|x xs IH]; intros He Hm.
  - inversion He.
  - simpl. apply elem_of_cons in He as [<-|He].
    + now rewrite Hm.
    + destruct (SupportedNotifications.GetNotifications s !! x.1);
        [now apply IH|reflexivity].
Qed.

(** What the handler leaves alone when it starts the subscriptions. *)
Lemma startSubscriptions_ok (n : gmap string string)
    (entries : list (string * NotificationState.t)) (i : Impl.t) :
  (forall e, e ∈ entries -> is_Some (n !! fst e)) ->
  exists i', startSubscriptions n entries i = Returns i'
             /\ fullServerJid i' = fullServerJid i
             /\ states i' = states i
             /\ ongoingPing i' = ongoingPing i
             /\ sent i' = sent i.
Proof.
  revert i. induction entries as [|x xs IH]; intros i Hall; simpl.
  - eauto 6.
  - destruct (Hall x) as [node Hnode]; [left|]. rewrite Hnode.
    destruct (IH (set_subscribeCalls (subscribeCalls i ++ [(node, x.1)]) i))
      as (i' & -> & ? & ? & ? & ?).
    + intros e He. apply Hall. now right.
    + exists i'. now destruct i.
Qed.

Lemma selectServer_ok (p : Presence.t) (i : Impl.t) :
  lacksSupport (Presence.findSupportedNotifications p)
               (map_to_list (states i)) = false ->
  exists i', selectServer p i = Returns i'
             /\ fullServerJid i' = Presence.from p
             /\ states i' = states i
             /\ ongoingPing i' = ongoingPing i
             /\ sent i' = (sent i
                  ++ [PresenceStanza Presence.Available (Presence.from p)])%list.
Proof.
  intros Hl. unfold selectServer.
  case_bool_decide as Hempty; simpl in *.
  - eauto 6.
  - destruct (Presence.findSupportedNotifications p) as [sn|] eqn:Hsn.
    + edestruct (startSubscriptions_ok
                   (SupportedNotifications.GetNotifications sn)
                   (map_to_list (states i))) as (i' & Hs & Hj & Hst & Hp & Hse).
      * intros e He. destruct (lacksSupport_false _ _ Hl e He) as (s & Hs & Hk).
        now inversion Hs; subst.
      * exists i'. split; [exact Hs|]. rewrite Hj, Hst, Hp, Hse.
        now destruct i.
    + rewrite lacksSupport_none in Hl; [discriminate|].
      intros Hnil. now apply map_to_list_empty_iff in Hnil.
Qed.

Lemma notifyPing_same (i : Impl.t) :
  fullServerJid (notifyPing i) = fullServerJid i
  /\ states (notifyPing i) = states i
  /\ sent (notifyPing i) = sent i.
Proof. unfold notifyPing. destruct (lockPing i); now destruct i. Qed.

(** No presence makes the handler fail a [CHECK], and none changes the
    table of notification states. *)
Lemma handlePresence_returns (i : Impl.t) (p : Presence.t) :
  exists i', handlePresence i p = Returns i' /\ states i' = states i.
Proof.
  unfold handlePresence.
  destruct (Presence.subtype p); eauto.
  - destruct (Presence.findPong p); eauto.
    destruct (lacksSupport _ _) eqn:Hl; eauto.
    destruct (HasFullServerJid i); simpl.
    + eexists. split; [reflexivity|]. apply notifyPing_same.
    + destruct (selectServer_ok p i Hl) as (i' & -> & _ & Hst & _).
      eexists. split; [reflexivity|].
      now rewrite (proj1 (proj2 (notifyPing_same i'))).
  - destruct (gloox.JID.eqb _ _); eexists; split; reflexivity.
Qed.

Lemma handlePresences_returns (ps : list Presence.t) (i : Impl.t) :
  exists i', handlePresences i ps = Returns i' /\ states i' = states i.
Proof.
  revert i. induction ps as [|p ps IH]; intros i; simpl; eauto.
  destruct (handlePresence_returns i p) as (i1 & -> & H1).
  destruct (IH i1) as (i2 & -> & H2). exists i2. split; congruence.
Qed.

(** With a server selected, an available presence changes neither the
    selection nor the stanzas sent. *)
Lemma handlePresence_selected (i : Impl.t) (p : Presence.t) :
  HasFullServerJid i = true ->
  Presence.subtype p = Presence.Available ->
  exists i', handlePresence i p = Returns i'
             /\ fullServerJid i' = fullServerJid i
             /\ sent i' = sent i.
Proof.
  intros Hfull Hav. unfold handlePresence. rewrite Hav, Hfull. simpl.
  destruct (Presence.findPong p); eauto.
  destruct (lacksSupport _ _); eauto.
  eexists. split; [reflexivity|].
  destruct (notifyPing_same i) as (? & ? & ?). now split.
Qed.

End PresenceProperties.

(** ** What the handler does to a waiting call *)

Section HandlerCases.
Import OngoingRpcCall RpcResultHandler.

Lemma handleIqID_unavailable (call : OngoingRpcCall.t) (iq : IQ.t) :
  state call = WAITING -> serviceUnavailable iq ->
  handleIqID call iq =
    mk (TimedConditionVariable.Notify (cv call)) UNAVAILABLE
       (serverJid call) (result call) (error call).
Proof.
  intros Hs [Ht He]. unfold handleIqID.
  rewrite Hs, Ht, He. reflexivity.
Qed.

Lemma handleIqID_failure (call : OngoingRpcCall.t) (iq : IQ.t)
    (ext : RpcResponse.t) :
  state call = WAITING -> carries iq ext ->
  RpcResponse.IsSuccess ext = false ->
  handleIqID call iq =
    mk (TimedConditionVariable.Notify (cv call)) RESPONSE_ERROR
       (serverJid call) (result call)
       (Error.mk (RpcResponse.GetErrorCode ext)
                 (RpcResponse.GetErrorMessage ext)
                 (RpcResponse.GetErrorData ext)).
Proof.
  intros Hs (Ht & Hx & Hv) Hf. unfold handleIqID.
  rewrite Hs, Ht, Hx, Hv, Hf. reflexivity.
Qed.

Lemma handleIqID_success (call : OngoingRpcCall.t) (iq : IQ.t)
    (ext : RpcResponse.t) :
  state call = WAITING -> carries iq ext ->
  RpcResponse.IsSuccess ext = true ->
  handleIqID call iq =
    mk (TimedConditionVariable.Notify (cv call)) RESPONSE_SUCCESS
       (serverJid call) (RpcResponse.GetResult ext) (error call).
Proof.
  intros Hs (Ht & Hx & Hv) Hf. unfold handleIqID.
  rewrite Hs, Ht, Hx, Hv, Hf. reflexivity.
Qed.

Lemma handleIqID_ignored (call : OngoingRpcCall.t) (iq : IQ.t) :
  ignored iq -> handleIqID call iq = call.
Proof.
  intros [Hsu Hi]. unfold handleIqID, serviceUnavailable in *.
  destruct (bool_decide (state call = WAITING)); simpl; [|reflexivity].
  repeat case_bool_decide; simpl; try reflexivity; try tauto.
  all: destruct Hi as [Hi|[Hi|(ext & Hi & Hv)]]; try contradiction;
    rewrite Hi; [reflexivity|]; now rewrite Hv.
Qed.

(** Every IQ is of one of three kinds. *)
Lemma iq_kinds (iq : IQ.t) :
  serviceUnavailable iq \/ ignored iq
  \/ exists ext, carries iq ext.
Proof.
  unfold serviceUnavailable, ignored, carries.
  destruct (decide (IQ.subtype iq = IQ.Error
                    /\ IQ.error iq = Some gloox.StanzaErrorServiceUnavailable))
    as [Hsu|Hsu]; [now left|right].
  destruct (decide (IQ.subtype iq = IQ.Result)) as [Hr|Hr];
    [|left; split; [exact Hsu|now left]].
  destruct (IQ.findRpcResponse iq) as [ext|] eqn:Hx;
    [|left; split; [exact Hsu|right; now left]].
  destruct (RpcResponse.IsValid ext) eqn:Hv.
  - right. now exists ext.
  - left. split; [exact Hsu|]. right. right. now exists ext.
Qed.

(** The turn at which an IQ moves the call out of [WAITING] ends the
    wait, whatever came before in quiet turns and whatever comes later. *)
Lemma awaitCall_resolving (call : OngoingRpcCall.t) (qs rest : list CallRound.t)
    (pre post : list IQ.t) (iq : IQ.t) (clk : TimePoint) :
  Forall (quiet call) qs ->
  state (handleAll call pre) = WAITING ->
  state (handleIqID call iq) <> WAITING ->
  awaitCall call (qs ++ CallRound.mk (pre ++ iq :: post) clk :: rest) =
    match state (handleIqID call iq) with
    | RESPONSE_SUCCESS => Returns (result (handleIqID call iq))
    | RESPONSE_ERROR => Throws (error (handleIqID call iq))
    | _ => Throws unavailableError
    end.
Proof.
  intros Hq Hpre Hres. rewrite awaitCall_quiet by exact Hq.
  cbn [awaitCall CallRound.arrivals CallRound.clock].
  rewrite handleAll_app, (handleAll_still_waiting _ _ Hpre).
  change (handleAll call (iq :: post))
    with (handleAll (handleIqID call iq) post).
  rewrite handleAll_not_waiting by exact Hres.
  destruct (state (handleIqID call iq)); try reflexivity; congruence.
Qed.

End HandlerCases.

(** ** Discovery and forwarding *)

Section ForwardProperties.
Import OngoingRpcCall RpcResultHandler.
Context (parseJID : string -> gloox.JID.t).

Lemma TryEnsureFullServerJid_selected (client : ClientRef.t) (now : TimePoint)
    (rounds : list PingRound.t) (i : Impl.t) :
  Impl.HasFullServerJid i = true ->
  Impl.TryEnsureFullServerJid parseJID client now rounds i = (Returns tt, i).
Proof. intros H. unfold Impl.TryEnsureFullServerJid. now rewrite H. Qed.

(** After the discovery has returned with a server, [ForwardMethod]
    sends the request to that server and waits for the call. *)
Lemma ForwardMethod_discovered (client : ClientRef.t) (method : string)
    (params : Json) (sch : Impl.Schedule) (i i1 : Impl.t) :
  Impl.TryEnsureFullServerJid parseJID client (Impl.entered sch)
                              (Impl.discovery sch) i = (Returns tt, i1) ->
  Impl.HasFullServerJid i1 = true ->
  Impl.ForwardMethod parseJID client method params sch i =
    (awaitCall (issuedCall client sch (Impl.fullServerJid i1)) (Impl.replies sch),
     Impl.send (RpcRequestStanza (Impl.fullServerJid i1) method params) i1).
Proof.
  intros Ht Hf. unfold Impl.ForwardMethod. now rewrite Ht, Hf.
Qed.

(** The discovery wait never fails a [CHECK], and it returns once a turn
    is past the end time of the ping. *)
Lemma waitForPong_returns (endTime : TimePoint) (rounds : list PingRound.t)
    (i : Impl.t) :
  Exists (fun r => endTime <= PingRound.after r) rounds ->
  exists i', Impl.waitForPong endTime rounds i = (Returns tt, i').
Proof.
  intros Hex. revert i.
  induction Hex as [r rest Hr|r rest _ IH]; intros i; cbn [Impl.waitForPong].
  - destruct (endTime <=? PingRound.before r).
    + rewrite (proj2 (Z.leb_le _ _) Hr). eauto.
    + destruct (handlePresences_returns (PingRound.presences r) i)
        as (i' & -> & _).
      rewrite (proj2 (Z.leb_le _ _) Hr). eauto.
  - assert (exists i', (if endTime <=? PingRound.before r then Returns i
                        else Impl.handlePresences i (PingRound.presences r))
                       = Returns i') as (i' & ->).
    { destruct (endTime <=? PingRound.before r); eauto.
      destruct (handlePresences_returns (PingRound.presences r) i)
        as (i' & -> & _). eauto. }
    destruct (endTime <=? PingRound.after r); eauto.
    destruct (Impl.HasFullServerJid i'); eauto.
Qed.

(** The wait for the reply ends once a turn is past the end time of the
    call. *)
Lemma awaitCall_ends (call : OngoingRpcCall.t) (rounds : list CallRound.t) :
  Exists (fun r => TimedConditionVariable.endTime (cv call)
                   <= CallRound.clock r) rounds ->
  awaitCall call rounds <> Blocked.
Proof.
  intros Hex. revert call Hex.
  induction rounds as [|r rest IH]; intros call Hex; [inversion Hex|].
  cbn [awaitCall].
  destruct (state (handleAll call (CallRound.arrivals r))) eqn:Hs;
    try discriminate.
  rewrite (handleAll_still_waiting _ _ Hs).
  unfold TimedConditionVariable.IsTimedOut.
  destruct (Z.leb_spec (TimedConditionVariable.endTime (cv call))
                       (CallRound.clock r)); [discriminate|].
  apply IH. inversion Hex; subst; [lia|assumption].
Qed.

End ForwardProperties.

(** ** Every way in which a forwarded call can end *)

Section Outcomes.
Import OngoingRpcCall RpcResultHandler.
Context (parseJID : string -> gloox.JID.t).

(** A batch of IQs leaves a waiting call as it is, or the call is what
    the first IQ that resolved it made of it. *)
Lemma handleAll_resolver (iqs : list IQ.t) (call : OngoingRpcCall.t) :
  handleAll call iqs = call
  \/ exists iq, iq ∈ iqs /\ state (handleIqID call iq) <> WAITING
                /\ handleAll call iqs = handleIqID call iq.
Proof.
  induction iqs as [|iq iqs IH]; [now left|].
  change (handleAll call (iq :: iqs))
    with (handleAll (handleIqID call iq) iqs).
  destruct (handleIqID_cases call iq) as [Heq|Hne].
  - rewrite Heq. destruct IH as [IH|(q & Hin & Hq & IH)]; [now left|].
    right. exists q. split; [now right|now split].
  - right. exists iq. split; [left|split; [exact Hne|]].
    now apply handleAll_not_waiting.
Qed.

(** What a resolving IQ makes of a waiting call. *)
Lemma handleIqID_resolution (call : OngoingRpcCall.t) (iq : IQ.t) :
  state call = WAITING ->
  state (handleIqID call iq) <> WAITING ->
  state (handleIqID call iq) = UNAVAILABLE
  \/ (exists ext, carries iq ext /\ RpcResponse.IsSuccess ext = true
                  /\ state (handleIqID call iq) = RESPONSE_SUCCESS
                  /\ result (handleIqID call iq) = RpcResponse.GetResult ext)
  \/ (exists ext, carries iq ext /\ RpcResponse.IsSuccess ext = false
                  /\ state (handleIqID call iq) = RESPONSE_ERROR
                  /\ error (handleIqID call iq)
                     = Error.mk (RpcResponse.GetErrorCode ext)
                                (RpcResponse.GetErrorMessage ext)
                                (RpcResponse.GetErrorData ext)).
Proof.
  intros Hw Hres.
  destruct (iq_kinds iq) as [Hsu|[Hig|(ext & Hc)]].
  - left. now rewrite handleIqID_unavailable.
  - rewrite handleIqID_ignored in Hres by exact Hig. contradiction.
  - right. destruct (RpcResponse.IsSuccess ext) eqn:Hsucc.
    + left. exists ext. now rewrite (handleIqID_success _ _ ext).
    + right. exists ext. now rewrite (handleIqID_failure _ _ ext).
Qed.

(** The wait for a reply ends in one of five ways, unless the schedule
    ends first. *)
Lemma awaitCall_outcomes (rounds : list CallRound.t) (call : OngoingRpcCall.t) :
  state call = WAITING ->
  awaitCall call rounds = Blocked
  \/ awaitCall call rounds = Throws (timeoutError (serverJid call))
  \/ awaitCall call rounds = Throws unavailableError
  \/ (exists iq ext,
        iq ∈ concat (CallRound.arrivals <$> rounds)
        /\ carries iq ext /\ RpcResponse.IsSuccess ext = true
        /\ awaitCall call rounds = Returns (RpcResponse.GetResult ext))
  \/ (exists iq ext,
        iq ∈ concat (CallRound.arrivals <$> rounds)
        /\ carries iq ext /\ RpcResponse.IsSuccess ext = false
        /\ awaitCall call rounds
           = Throws (Error.mk (RpcResponse.GetErrorCode ext)
                              (RpcResponse.GetErrorMessage ext)
                              (RpcResponse.GetErrorData ext))).
Proof.
  intros Hw. induction rounds as [|r rest IH]; [now left|].
  cbn [awaitCall fmap list_fmap concat].
  destruct (handleAll_resolver (CallRound.arrivals r) call)
    as [Heq|(iq & Hin & Hres & Heq)]; rewrite Heq.
  - rewrite Hw. destruct (TimedConditionVariable.IsTimedOut _ _).
    + right. now left.
    + destruct IH as [IH|[IH|[IH|[IH|IH]]]]; try tauto.
      * destruct IH as (q & ext & Hq & ?). do 3 right. left.
        exists q, ext. rewrite elem_of_app. tauto.
      * destruct IH as (q & ext & Hq & ?). do 4 right.
        exists q, ext. rewrite elem_of_app. tauto.
  - destruct (handleIqID_resolution call iq Hw Hres)
      as [Hu|[(ext & Hc & Hs & Hst & Hr)|(ext & Hc & Hs & Hst & He)]].
    + rewrite Hu. right. right. now left.
    + rewrite Hst, Hr. do 3 right. left. exists iq, ext.
      rewrite elem_of_app. tauto.
    + rewrite Hst, He. do 4 right. exists iq, ext.
      rewrite elem_of_app. tauto.
Qed.

Lemma waitForPong_outcomes (endTime : TimePoint) (rounds : list PingRound.t)
    (i : Impl.t) :
  fst (Impl.waitForPong endTime rounds i) = Returns tt
  \/ fst (Impl.waitForPong endTime rounds i) = Blocked.
Proof.
  revert i. induction rounds as [|r rest IH]; intros i;
    cbn [Impl.waitForPong]; [now right|].
  assert (exists i', (if endTime <=? PingRound.before r then Returns i
                      else Impl.handlePresences i (PingRound.presences r))
                     = Returns i') as (i' & ->).
  { destruct (endTime <=? PingRound.before r); eauto.
    destruct (handlePresences_returns (PingRound.presences r) i)
      as (i' & -> & _). eauto. }
  destruct (endTime <=? PingRound.after r); [now left|].
  destruct (Impl.HasFullServerJid i'); [now left|apply IH].
Qed.

Lemma TryEnsureFullServerJid_outcomes (client : ClientRef.t) (now : TimePoint)
    (rounds : list PingRound.t) (i : Impl.t) :
  fst (Impl.TryEnsureFullServerJid parseJID client now rounds i) = Returns tt
  \/ fst (Impl.TryEnsureFullServerJid parseJID client now rounds i) = Blocked.
Proof.
  unfold Impl.TryEnsureFullServerJid.
  destruct (Impl.HasFullServerJid i); [now left|].
  match goal with
  | |- context [Impl.waitForPong ?e ?r ?j] =>
      destruct (waitForPong_outcomes e r j) as [H|H];
      destruct (Impl.waitForPong e r j) as [[[]| | |] j'];
      simpl in *; try discriminate; tauto
  end.
Qed.

(** [ForwardMethod] never fails a [CHECK]; it returns the result of a
    success response, throws the error of an error response, or throws
    one of three internal errors. *)
Lemma ForwardMethod_outcomes (client : ClientRef.t) (method : string)
    (params : Json) (sch : Impl.Schedule) (i : Impl.t) :
  let outcome := fst (Impl.ForwardMethod parseJID client method params sch i) in
  outcome = Blocked
  \/ outcome = Throws (Impl.noServerError client)
  \/ (exists to, outcome = Throws (timeoutError to))
  \/ outcome = Throws unavailableError
  \/ (exists iq ext,
        iq ∈ concat (CallRound.arrivals <$> Impl.replies sch)
        /\ carries iq ext /\ RpcResponse.IsSuccess ext = true
        /\ outcome = Returns (RpcResponse.GetResult ext))
  \/ (exists iq ext,
        iq ∈ concat (CallRound.arrivals <$> Impl.replies sch)
        /\ carries iq ext /\ RpcResponse.IsSuccess ext = false
        /\ outcome = Throws (Error.mk (RpcResponse.GetErrorCode ext)
                                      (RpcResponse.GetErrorMessage ext)
                                      (RpcResponse.GetErrorData ext))).
Proof.
  cbv zeta. unfold Impl.ForwardMethod.
  destruct (TryEnsureFullServerJid_outcomes client (Impl.entered sch)
              (Impl.discovery sch) i) as [H|H];
    destruct (Impl.TryEnsureFullServerJid _ _ _ _ _) as [[[]| | |] i1];
    simpl in H; try discriminate; [|now left].
  destruct (Impl.HasFullServerJid i1); simpl; [|right; now left].
  match goal with
  | |- context [awaitCall ?c ?r] =>
      destruct (awaitCall_outcomes r c eq_refl) as [Ho|[Ho|[Ho|[Ho|Ho]]]]
  end; rewrite ?Ho; eauto 10.
Qed.

End Outcomes.

(** ** Claims on forwarded calls *)

Section ForwardClaims.
Import OngoingRpcCall RpcResultHandler.
Context (parseJID : string -> gloox.JID.t).

(** C1.  When the reply that resolves a waiting forwarded call is an
    error response with code [c], message [m] and data [d], the handler
    stores [Error (c, m, d)] in the call and [ForwardMethod] throws
    exactly that error.  The reply may come after any number of quiet
    turns of the wait and after IQs that left the call waiting. *)
Theorem forwarded_error_is_unmodified
    (client : ClientRef.t) (method : string) (params : Json)
    (sch : Impl.Schedule) (i i1 : Impl.t)
    (qs rest : list CallRound.t) (pre post : list IQ.t) (iq : IQ.t)
    (ext : RpcResponse.t) (clk : TimePoint) :
  Impl.TryEnsureFullServerJid parseJID client (Impl.entered sch)
                              (Impl.discovery sch) i = (Returns tt, i1) ->
  Impl.HasFullServerJid i1 = true ->
  Impl.replies sch = (qs ++ CallRound.mk (pre ++ iq :: post) clk :: rest)%list ->
  Forall (quiet (issuedCall client sch (Impl.fullServerJid i1))) qs ->
  state (handleAll (issuedCall client sch (Impl.fullServerJid i1)) pre)
    = WAITING ->
  carries iq ext ->
  RpcResponse.IsSuccess ext = false ->
  error (handleIqID (issuedCall client sch (Impl.fullServerJid i1)) iq)
    = Error.mk (RpcResponse.GetErrorCode ext)
               (RpcResponse.GetErrorMessage ext)
               (RpcResponse.GetErrorData ext)
  /\ fst (Impl.ForwardMethod parseJID client method params sch i)
     = Throws (Error.mk (RpcResponse.GetErrorCode ext)
                        (RpcResponse.GetErrorMessage ext)
                        (RpcResponse.GetErrorData ext)).
Proof.
  intros Hd Hf Hr Hq Hpre Hc Hs.
  set (call := issuedCall client sch (Impl.fullServerJid i1)) in *.
  assert (Hcall : handleIqID call iq
                  = mk (TimedConditionVariable.Notify (cv call)) RESPONSE_ERROR
                       (serverJid call) (result call)
                       (Error.mk (RpcResponse.GetErrorCode ext)
                                 (RpcResponse.GetErrorMessage ext)
                                 (RpcResponse.GetErrorData ext)))
    by now apply handleIqID_failure.
  split; [now rewrite Hcall|].
  rewrite (ForwardMethod_discovered parseJID client method params sch i i1 Hd Hf).
  cbn [fst]. fold call. rewrite Hr.
  rewrite awaitCall_resolving by (try assumption; now rewrite Hcall).
  now rewrite Hcall.
Qed.

(** C2.  The transport failures of [ForwardMethod] are thrown with the
    internal-error code: when the discovery ends without a full server
    JID; when the IQ that resolves the call is a service-unavailable
    error; and when the clock has reached the end time of the call,
    which is the time of issue plus the timeout of the client, while the
    call still waits.  A client is constructed with a timeout of three
    seconds.  Nothing else is surfaced under another code or as a
    result: a normal return gives the result of a success response that
    has arrived, and a thrown error has the internal-error code or is
    the error of an error response that has arrived. *)
Theorem transport_failures_are_internal_errors
    (client : ClientRef.t) (method : string) (params : Json)
    (sch : Impl.Schedule) (i i1 : Impl.t) :
  Impl.TryEnsureFullServerJid parseJID client (Impl.entered sch)
                              (Impl.discovery sch) i = (Returns tt, i1) ->
  (Impl.HasFullServerJid i1 = false ->
   fst (Impl.ForwardMethod parseJID client method params sch i)
   = Throws (Error.mk ERROR_RPC_INTERNAL_ERROR
               ("could not discover full server JID for "
                +:+ ClientRef.serverJid client) JNull))
  /\ (Impl.HasFullServerJid i1 = true ->
      forall qs rest pre post iq clk,
        Impl.replies sch
          = (qs ++ CallRound.mk (pre ++ iq :: post) clk :: rest)%list ->
        Forall (quiet (issuedCall client sch (Impl.fullServerJid i1))) qs ->
        state (handleAll (issuedCall client sch (Impl.fullServerJid i1)) pre)
          = WAITING ->
        serviceUnavailable iq ->
        fst (Impl.ForwardMethod parseJID client method params sch i)
        = Throws (Error.mk ERROR_RPC_INTERNAL_ERROR
                           "selected server is unavailable" JNull))
  /\ (Impl.HasFullServerJid i1 = true ->
      forall qs rest r,
        Impl.replies sch = (qs ++ r :: rest)%list ->
        Forall (quiet (issuedCall client sch (Impl.fullServerJid i1))) qs ->
        state (handleAll (issuedCall client sch (Impl.fullServerJid i1))
                         (CallRound.arrivals r)) = WAITING ->
        Impl.issued sch + ClientRef.timeout client <= CallRound.clock r ->
        fst (Impl.ForwardMethod parseJID client method params sch i)
        = Throws (Error.mk ERROR_RPC_INTERNAL_ERROR
                    ("timeout waiting for result from "
                     +:+ gloox.JID.full (Impl.fullServerJid i1)) JNull))
  /\ (forall srv,
        ClientRef.timeout (Client.members (Client.new srv)) = 3000)
  /\ (forall v,
        fst (Impl.ForwardMethod parseJID client method params sch i) = Returns v ->
        exists iq ext,
          iq ∈ concat (CallRound.arrivals <$> Impl.replies sch)
          /\ carries iq ext /\ RpcResponse.IsSuccess ext = true
          /\ v = RpcResponse.GetResult ext)
  /\ (forall e,
        fst (Impl.ForwardMethod parseJID client method params sch i) = Throws e ->
        Error.code e = ERROR_RPC_INTERNAL_ERROR
        \/ exists iq ext,
             iq ∈ concat (CallRound.arrivals <$> Impl.replies sch)
             /\ carries iq ext /\ RpcResponse.IsSuccess ext = false
             /\ e = Error.mk (RpcResponse.GetErrorCode ext)
                             (RpcResponse.GetErrorMessage ext)
                             (RpcResponse.GetErrorData ext)).
Proof.
  intros Hd.
  assert (Hall := ForwardMethod_outcomes parseJID client method params sch i).
  cbv zeta in Hall.
  split; [|split; [|split; [|split; [|split]]]].
  - intros Hf. unfold Impl.ForwardMethod. now rewrite Hd, Hf.
  - intros Hf qs rest pre post iq clk Hr Hq Hpre Hsu.
    rewrite (ForwardMethod_discovered parseJID client method params sch i i1 Hd Hf).
    cbn [fst]. rewrite Hr.
    set (call := issuedCall client sch (Impl.fullServerJid i1)) in *.
    assert (Hcall := handleIqID_unavailable call iq eq_refl Hsu).
    rewrite awaitCall_resolving by (try assumption; now rewrite Hcall).
    now rewrite Hcall.
  - intros Hf qs rest r Hr Hq Hw Hclk.
    rewrite (ForwardMethod_discovered parseJID client method params sch i i1 Hd Hf).
    cbn [fst]. rewrite Hr.
    set (call := issuedCall client sch (Impl.fullServerJid i1)) in *.
    rewrite awaitCall_quiet by exact Hq. cbn [awaitCall].
    rewrite Hw, (handleAll_still_waiting _ _ Hw).
    unfold TimedConditionVariable.IsTimedOut.
    rewrite (proj2 (Z.leb_le _ _)); [reflexivity|exact Hclk].
  - intros srv. reflexivity.
  - intros v Hv. rewrite Hv in Hall.
    destruct Hall as [H|[H|[(to & H)|[H|[(q & ext & Hq & Hc & Hs & H)
                                        |(q & ext & _ & _ & _ & H)]]]]];
      try discriminate. injection H as ->. now exists q, ext.
  - intros e He. rewrite He in Hall.
    destruct Hall as [H|[H|[(to & H)|[H|[(q & ext & _ & _ & _ & H)
                                        |(q & ext & Hq & Hc & Hs & H)]]]]];
      try discriminate; injection H as ->; try (now left).
    right. now exists q, ext.
Qed.

(** C3 (amended).  The handler leaves the call as it is, condition
    variable included, when the call no longer waits, or when the IQ is
    no service-unavailable error and is not a [Result], or lacks the
    response extension, or carries an invalid one.  Such an IQ changes
    nothing for the caller: the wait ends as it would without it, and a
    waiting call that gets only such IQs ends with its own timeout error
    if it ends at all. *)
Theorem dropped_iq_changes_nothing
    (call : OngoingRpcCall.t) (iq : IQ.t) :
  state call <> WAITING \/ ignored iq ->
  handleIqID call iq = call
  /\ (forall arrivals clk rest,
        awaitCall call (CallRound.mk (iq :: arrivals) clk :: rest)
        = awaitCall call (CallRound.mk arrivals clk :: rest))
  /\ (state call = WAITING ->
      forall rounds,
        Forall (fun r => Forall ignored (CallRound.arrivals r)) rounds ->
        awaitCall call rounds = Blocked
        \/ awaitCall call rounds = Throws (timeoutError (serverJid call))).
Proof.
  intros Hdrop.
  assert (Hsame : handleIqID call iq = call).
  { destruct Hdrop as [Hs|Hi];
      [now apply handleIqID_not_waiting|now apply handleIqID_ignored]. }
  split; [exact Hsame|split].
  - intros arrivals clk rest. cbn [awaitCall CallRound.arrivals].
    change (handleAll call (iq :: arrivals))
      with (handleAll (handleIqID call iq) arrivals).
    now rewrite Hsame.
  - intros Hw rounds Hall.
    induction Hall as [|r rounds Hr _ IH]; [now left|].
    cbn [awaitCall].
    assert (Hr' : handleAll call (CallRound.arrivals r) = call).
    { clear IH. induction Hr as [|q qs Hq _ IHq]; [reflexivity|].
      change (handleAll call (q :: qs))
        with (handleAll (handleIqID call q) qs).
      now rewrite handleIqID_ignored. }
    rewrite Hr', Hw.
    destruct (TimedConditionVariable.IsTimedOut _ _); [now right|exact IH].
Qed.

End ForwardClaims.

(** The test of the unit tests for errors: the server answers the method
    [error] with an error response, and the caller gets that error. *)
Lemma forwarded_error_is_unmodified_witness :
  Impl.HasFullServerJid Examples.selected = true
  /\ carries Examples.boom (RpcResponse.failure (-32000) "boom" (JString "details"))
  /\ fst (Impl.ForwardMethod Examples.parse Examples.client "error"
            (JArray [JString "boom"]) (Examples.replied Examples.boom)
            Examples.selected)
     = Throws (Error.mk (-32000) "boom" (JString "details")).
Proof.
  split; [reflexivity|]. split; [repeat split|].
  apply (proj2 (forwarded_error_is_unmodified Examples.parse Examples.client
                  "error" (JArray [JString "boom"])
                  (Examples.replied Examples.boom)
                  Examples.selected Examples.selected [] [] [] []
                  Examples.boom
                  (RpcResponse.failure (-32000) "boom" (JString "details")) 10
                  eq_refl eq_refl eq_refl (Forall_nil_2 _) eq_refl
                  (conj eq_refl (conj eq_refl eq_refl)) eq_refl)).
Defined.

(** The three transport failures on the example client: nobody answers
    the ping; the selected server has gone; the server never replies. *)
Lemma transport_failures_are_internal_errors_witness :
  fst (Impl.ForwardMethod Examples.parse Examples.client "echo"
         (JArray [JString "hello"]) Examples.undiscovered Examples.fresh)
  = Throws (Error.mk ERROR_RPC_INTERNAL_ERROR
              "could not discover full server JID for gsp.example" JNull)
  /\ fst (Impl.ForwardMethod Examples.parse Examples.client "echo"
            (JArray [JString "hello"]) (Examples.replied Examples.gone)
            Examples.selected)
     = Throws (Error.mk ERROR_RPC_INTERNAL_ERROR
                        "selected server is unavailable" JNull)
  /\ fst (Impl.ForwardMethod Examples.parse Examples.client "echo"
            (JArray [JString "hello"]) Examples.unanswered Examples.selected)
     = Throws (Error.mk ERROR_RPC_INTERNAL_ERROR
                        "timeout waiting for result from gsp.example/srv" JNull).
Proof.
  split; [|split].
  - apply (proj1 (transport_failures_are_internal_errors Examples.parse
                    Examples.client "echo" (JArray [JString "hello"])
                    Examples.undiscovered Examples.fresh _ eq_refl)).
    reflexivity.
  - apply (proj1 (proj2 (transport_failures_are_internal_errors Examples.parse
                    Examples.client "echo" (JArray [JString "hello"])
                    (Examples.replied Examples.gone) Examples.selected
                    Examples.selected eq_refl)) eq_refl
                 [] [] [] [] Examples.gone 10 eq_refl (Forall_nil_2 _) eq_refl).
    split; reflexivity.
  - apply (proj1 (proj2 (proj2 (transport_failures_are_internal_errors
                    Examples.parse Examples.client "echo"
                    (JArray [JString "hello"]) Examples.unanswered
                    Examples.selected Examples.selected eq_refl))) eq_refl
                 [CallRound.mk [Examples.garbled] 500] []
                 (CallRound.mk [Examples.bare_result] 3000) eq_refl).
    + constructor; [|constructor]. split; [reflexivity|]. vm_compute. reflexivity.
    + reflexivity.
    + vm_compute. discriminate.
Defined.

(** C3, as stated, fails on a service-unavailable error, which has no
    response extension: the handler moves the waiting call to
    [UNAVAILABLE] and notifies the waiting thread, and the caller gets an
    error. *)
Lemma silent_drop_counterexample :
  OngoingRpcCall.state Examples.call = OngoingRpcCall.WAITING
  /\ IQ.findRpcResponse Examples.gone = None
  /\ RpcResultHandler.handleIqID Examples.call Examples.gone <> Examples.call
  /\ OngoingRpcCall.state
       (RpcResultHandler.handleIqID Examples.call Examples.gone)
     = OngoingRpcCall.UNAVAILABLE
  /\ TimedConditionVariable.notified
       (OngoingRpcCall.cv
          (RpcResultHandler.handleIqID Examples.call Examples.gone))
     = S (TimedConditionVariable.notified (OngoingRpcCall.cv Examples.call))
  /\ awaitCall Examples.call [CallRound.mk [Examples.gone] 10]
     = Throws unavailableError.
Proof.
  repeat split; try reflexivity. vm_compute. discriminate.
Defined.

(** A garbled response and a late one are both dropped. *)
Lemma dropped_iq_changes_nothing_witness :
  RpcResultHandler.handleIqID Examples.call Examples.garbled = Examples.call
  /\ RpcResultHandler.handleIqID
       (RpcResultHandler.handleIqID Examples.call Examples.hello) Examples.boom
     = RpcResultHandler.handleIqID Examples.call Examples.hello.
Proof.
  split.
  - apply (dropped_iq_changes_nothing Examples.call Examples.garbled).
    right. split.
    + intros [H _]. discriminate H.
    + right. right. exists RpcResponse.invalid. split; reflexivity.
  - apply (dropped_iq_changes_nothing
             (RpcResultHandler.handleIqID Examples.call Examples.hello)
             Examples.boom).
    left. vm_compute. discriminate.
Defined.

(** ** Claims on the selection of the server *)

Section SelectionLemmas.
Import Impl.

Lemma HasFullServerJid_same (a b : Impl.t) :
  fullServerJid a = fullServerJid b ->
  HasFullServerJid a = HasFullServerJid b.
Proof. unfold HasFullServerJid. now intros ->. Qed.

(** An available presence that is not accepted changes nothing. *)
Lemma handlePresence_rejected (i : Impl.t) (p : Presence.t) :
  Presence.subtype p = Presence.Available ->
  ~ accepted i p ->
  handlePresence i p = Returns i.
Proof.
  intros Hav Hna. unfold handlePresence. rewrite Hav.
  destruct (Presence.findPong p) as [[]|] eqn:Hp; [|reflexivity].
  destruct (lacksSupport _ _) eqn:Hl; [reflexivity|].
  exfalso. apply Hna. now repeat split.
Qed.

(** The first accepted presence selects its sender. *)
Lemma handlePresence_accepted (i : Impl.t) (p : Presence.t) :
  HasFullServerJid i = false ->
  accepted i p ->
  exists i', handlePresence i p = Returns i'
             /\ fullServerJid i' = Presence.from p
             /\ states i' = states i
             /\ sent i' = (sent i ++ [PresenceStanza Presence.Available
                                                    (Presence.from p)])%list.
Proof.
  intros Hf (Hav & Hp & Hl). unfold handlePresence.
  rewrite Hav, Hp, Hl, Hf. simpl.
  destruct (selectServer_ok p i Hl) as (i' & -> & Hj & Hst & _ & Hse).
  eexists. split; [reflexivity|].
  destruct (notifyPing_same i') as (-> & -> & ->). now repeat split.
Qed.

Lemma handlePresences_selected (ps : list Presence.t) (i : Impl.t) :
  Forall (fun p => Presence.subtype p = Presence.Available) ps ->
  HasFullServerJid i = true ->
  exists i', handlePresences i ps = Returns i'
             /\ fullServerJid i' = fullServerJid i
             /\ sent i' = sent i.
Proof.
  intros Hall. revert i.
  induction Hall as [|p ps Hp _ IH]; intros i Hf; simpl; [eauto|].
  destruct (handlePresence_selected i p Hf Hp) as (i1 & -> & Hj & Hs).
  destruct (IH i1) as (i2 & -> & Hj2 & Hs2).
  - now rewrite (HasFullServerJid_same i1 i).
  - exists i2. split; [reflexivity|]. split; congruence.
Qed.

Lemma handlePresences_app (xs ys : list Presence.t) (i i' : Impl.t) :
  handlePresences i xs = Returns i' ->
  handlePresences i (xs ++ ys) = handlePresences i' ys.
Proof.
  revert i. induction xs as [|x xs IH]; intros i; simpl.
  - now intros [= ->].
  - destruct (handlePresence i x); try discriminate. apply IH.
Qed.

End SelectionLemmas.

Section SelectionClaims.
Import Impl.

(** C4.  Once the full server JID has a resource, no available presence
    changes it, whoever sends it; so of the available presences the
    first accepted one, sent from an address with a resource, selects
    the server, and those before it, which are not accepted, and those
    after it select nothing. *)
Theorem first_responder_wins (i : Impl.t) (ps : list Presence.t) :
  Forall (fun p => Presence.subtype p = Presence.Available) ps ->
  (HasFullServerJid i = true ->
   exists i', handlePresences i ps = Returns i'
              /\ fullServerJid i' = fullServerJid i)
  /\ (forall before p,
        HasFullServerJid i = false ->
        Forall (fun q => Presence.subtype q = Presence.Available
                         /\ ~ accepted i q) before ->
        accepted i p ->
        gloox.JID.resource (Presence.from p) <> "" ->
        exists i', handlePresences i (before ++ p :: ps) = Returns i'
                   /\ fullServerJid i' = Presence.from p).
Proof.
  intros Hall. split.
  - intros Hf. destruct (handlePresences_selected ps i Hall Hf)
      as (i' & ? & ? & _). eauto.
  - intros before p Hf Hbefore Hacc Hres.
    assert (Hb : handlePresences i before = Returns i).
    { induction Hbefore as [|q qs [Hq Hnq] _ IH]; [reflexivity|].
      simpl. now rewrite handlePresence_rejected. }
    rewrite (handlePresences_app _ _ _ _ Hb). simpl.
    destruct (handlePresence_accepted i p Hf Hacc) as (i1 & -> & Hj & _).
    destruct (handlePresences_selected ps i1 Hall) as (i2 & ? & ? & _).
    + unfold HasFullServerJid. rewrite Hj.
      now rewrite bool_decide_eq_false_2.
    + exists i2. split; [assumption|congruence].
Qed.

(** C5.  [states] holds one entry for each notification type registered
    with the client ([new_states]).  An available presence with a pong
    that has no supported-notifications extension although there is
    such an entry, or whose extension lacks the type of some entry,
    makes the handler return with nothing changed: its sender is not
    selected and nothing is sent. *)
Theorem unsupporting_peer_is_not_selected (i : Impl.t) (p : Presence.t) :
  Presence.subtype p = Presence.Available ->
  Presence.findPong p = Some tt ->
  states i <> ∅ ->
  (Presence.findSupportedNotifications p = None
   \/ exists sn type,
        Presence.findSupportedNotifications p = Some sn
        /\ is_Some (states i !! type)
        /\ SupportedNotifications.GetNotifications sn !! type = None) ->
  handlePresence i p = Returns i.
Proof.
  intros Hav Hp Hne Hmiss. unfold handlePresence. rewrite Hav, Hp.
  assert (Hl : lacksSupport (Presence.findSupportedNotifications p)
                            (map_to_list (states i)) = true);
    [|now rewrite Hl].
  destruct Hmiss as [->|(sn & type & -> & [s Hs] & Hn)].
  - apply lacksSupport_none. intros Hnil.
    now apply map_to_list_empty_iff in Hnil.
  - apply (lacksSupport_missing sn _ (type, s)); [|exact Hn].
    now apply elem_of_map_to_list.
Qed.

End SelectionClaims.

(** The states of a new implementation are those of the notification
    types registered with the client. *)
Lemma new_states (parseJID : string -> gloox.JID.t) (client : ClientRef.t)
    (type : string) :
  Impl.states (Impl.new parseJID client) !! type
  = NotificationState.new <$> ClientRef.notifications client !! type.
Proof. unfold Impl.new. simpl. apply lookup_fmap. Qed.

(** ** What is sent during the discovery *)

Section SentLemmas.
Import Impl.
Context (parseJID : string -> gloox.JID.t).

Lemma handlePresence_sent (i : Impl.t) (p : Presence.t) :
  exists i' more, handlePresence i p = Returns i'
                  /\ sent i' = (sent i ++ more)%list.
Proof.
  destruct (Presence.subtype p) eqn:Hsub;
    try (exists i, []; unfold handlePresence; rewrite Hsub;
         now rewrite app_nil_r).
  - destruct (HasFullServerJid i) eqn:Hf.
    + destruct (handlePresence_selected i p Hf Hsub) as (i' & ? & _ & Hs).
      exists i', []. now rewrite app_nil_r.
    + destruct (decide (accepted i p)) as [Ha|Hna].
      * destruct (handlePresence_accepted i p Hf Ha) as (i' & ? & _ & _ & Hs).
        eauto.
      * exists i, []. rewrite app_nil_r.
        now rewrite handlePresence_rejected.
  - unfold handlePresence. rewrite Hsub.
    destruct (gloox.JID.eqb _ _); eexists; exists [];
      (split; [reflexivity|]); now rewrite app_nil_r.
Qed.

Lemma handlePresences_sent (ps : list Presence.t) (i : Impl.t) :
  exists i' more, handlePresences i ps = Returns i'
                  /\ sent i' = (sent i ++ more)%list.
Proof.
  revert i. induction ps as [|p ps IH]; intros i; simpl.
  - exists i, []. now rewrite app_nil_r.
  - destruct (handlePresence_sent i p) as (i1 & m1 & -> & H1).
    destruct (IH i1) as (i2 & m2 & -> & H2).
    exists i2, (m1 ++ m2)%list. split; [reflexivity|].
    now rewrite H2, H1, app_assoc.
Qed.

Lemma waitForPong_sent (endTime : TimePoint) (rounds : list PingRound.t)
    (i : Impl.t) :
  exists more,
    sent (snd (waitForPong endTime rounds i)) = (sent i ++ more)%list.
Proof.
  revert i. induction rounds as [|r rest IH]; intros i; cbn [waitForPong].
  - exists []. now rewrite app_nil_r.
  - assert (exists i' m, (if endTime <=? PingRound.before r then Returns i
                          else handlePresences i (PingRound.presences r))
                         = Returns i' /\ sent i' = (sent i ++ m)%list)
      as (i' & m & -> & Hm).
    { destruct (endTime <=? PingRound.before r).
      - exists i, []. now rewrite app_nil_r.
      - apply handlePresences_sent. }
    destruct (endTime <=? PingRound.after r); [simpl; eauto|].
    destruct (HasFullServerJid i'); [simpl; eauto|].
    destruct (IH i') as (m' & ->). exists (m ++ m')%list.
    now rewrite Hm, app_assoc.
Qed.

Lemma releasePing_sent (i : Impl.t) : sent (releasePing i) = sent i.
Proof.
  unfold releasePing. destruct (ongoingPing i) as [p|]; [|reflexivity].
  now destruct (use_count p <=? 1)%nat.
Qed.

(** Without a full server JID and with no ping under way, the discovery
    starts by sending a ping to the server of the client. *)
Lemma TryEnsureFullServerJid_pings (client : ClientRef.t) (now : TimePoint)
    (rounds : list PingRound.t) (i : Impl.t) :
  HasFullServerJid i = false ->
  lockPing i = None ->
  exists more,
    sent (snd (TryEnsureFullServerJid parseJID client now rounds i))
    = (sent i ++ PingStanza (parseJID (ClientRef.serverJid client)) :: more)%list.
Proof.
  intros Hf Hl. unfold TryEnsureFullServerJid. rewrite Hf, Hl.
  cbn [fst snd].
  match goal with
  | |- context [waitForPong ?e ?r ?j] =>
      destruct (waitForPong_sent e r j) as (m & Hm);
      destruct (waitForPong e r j) as [[[]| | |] j'];
      cbn [snd] in *; rewrite ?releasePing_sent, Hm;
      exists m; simpl; now rewrite <- app_assoc
  end.
Qed.

Lemma ForwardMethod_pings (client : ClientRef.t) (method : string)
    (params : Json) (sch : Schedule) (i : Impl.t) :
  HasFullServerJid i = false ->
  lockPing i = None ->
  exists more,
    sent (snd (ForwardMethod parseJID client method params sch i))
    = (sent i ++ PingStanza (parseJID (ClientRef.serverJid client)) :: more)%list.
Proof.
  intros Hf Hl. unfold ForwardMethod.
  destruct (TryEnsureFullServerJid_pings client (entered sch) (discovery sch)
              i Hf Hl) as (m & Hm).
  destruct (TryEnsureFullServerJid _ _ _ _ _) as [[[]| | |] i1];
    cbn [snd] in *; eauto.
  destruct (HasFullServerJid i1); cbn [negb snd]; eauto.
  unfold send. simpl. rewrite Hm. exists (m ++ [RpcRequestStanza (fullServerJid i1) method params])%list.
  now rewrite <- app_assoc.
Qed.

End SentLemmas.

Section RediscoveryClaim.
Import Impl.
Context (parseJID : string -> gloox.JID.t).

(** C7.  An unavailable presence whose sender equals the full server
    JID resets that JID to its bare form, without a resource.  The next
    discovery then does not return at once but waits for a presence,
    and the next [ForwardMethod] first sends a ping to the server of the
    client, unless a ping is under way, which it joins.  An unavailable
    presence from any other sender changes nothing. *)
Theorem unavailable_server_is_forgotten
    (client : ClientRef.t) (i : Impl.t) (p : Presence.t) :
  Presence.subtype p = Presence.Unavailable ->
  (gloox.JID.full (Presence.from p) = gloox.JID.full (fullServerJid i) ->
   exists i',
     handlePresence i p = Returns i'
     /\ fullServerJid i' = gloox.JID.bareJID (fullServerJid i)
     /\ gloox.JID.resource (fullServerJid i') = ""
     /\ HasFullServerJid i' = false
     /\ (forall now,
           fst (TryEnsureFullServerJid parseJID client now [] i') = Blocked)
     /\ (lockPing i = None ->
         forall method params sch,
         exists more,
           sent (snd (ForwardMethod parseJID client method params sch i'))
           = (sent i ++ PingStanza (parseJID (ClientRef.serverJid client))
                     :: more)%list))
  /\ (gloox.JID.full (Presence.from p) <> gloox.JID.full (fullServerJid i) ->
      handlePresence i p = Returns i).
Proof.
  intros Hsub. unfold handlePresence, gloox.JID.eqb. rewrite Hsub. split.
  - intros Heq. rewrite bool_decide_eq_true_2 by exact Heq.
    eexists. split; [reflexivity|].
    split; [reflexivity|]. split; [reflexivity|]. split; [reflexivity|].
    split.
    + intros now. reflexivity.
    + intros Hl method params sch.
      apply (ForwardMethod_pings parseJID client method params sch
               (set_fullServerJid (gloox.JID.bareJID (fullServerJid i)) i));
        [reflexivity|exact Hl].
  - intros Hne. now rewrite bool_decide_eq_false_2 by exact Hne.
Qed.

End RediscoveryClaim.

(** Two servers answer the ping of a client without notifications; the
    one whose pong is handled first is selected. *)
Lemma first_responder_wins_witness :
  Impl.HasFullServerJid Examples.fresh = false
  /\ accepted Examples.fresh (Examples.plain_pong Examples.server)
  /\ exists i',
       Impl.handlePresences Examples.fresh
         [Examples.no_pong Examples.other;
          Examples.plain_pong Examples.server;
          Examples.plain_pong Examples.other]
       = Returns i'
       /\ Impl.fullServerJid i' = Examples.server.
Proof.
  split; [reflexivity|]. split; [repeat split|].
  apply (proj2 (first_responder_wins Examples.fresh
                  [Examples.plain_pong Examples.other]
                  ltac:(repeat constructor))
           [Examples.no_pong Examples.other]
           (Examples.plain_pong Examples.server)).
  - reflexivity.
  - constructor; [|constructor]. split; [reflexivity|].
    intros (_ & H & _). discriminate H.
  - repeat split.
  - discriminate.
Defined.

(** The client has registered the type [state]; a server that offers no
    notifications, or only those of another type, is not selected. *)
Lemma unsupporting_peer_is_not_selected_witness :
  Impl.handlePresence Examples.subscriber (Examples.plain_pong Examples.server)
  = Returns Examples.subscriber
  /\ Impl.handlePresence Examples.subscriber
       (Examples.pong Examples.server {[ "pending" := "node2" ]})
     = Returns Examples.subscriber.
Proof.
  split.
  - apply (unsupporting_peer_is_not_selected Examples.subscriber
             (Examples.plain_pong Examples.server) eq_refl eq_refl).
    + intros H. apply (f_equal (fun m => m !! "state")) in H.
      vm_compute in H. discriminate H.
    + left. reflexivity.
  - apply (unsupporting_peer_is_not_selected Examples.subscriber
             (Examples.pong Examples.server {[ "pending" := "node2" ]})
             eq_refl eq_refl).
    + intros H. apply (f_equal (fun m => m !! "state")) in H.
      vm_compute in H. discriminate H.
    + right. exists (SupportedNotifications.mk "pubsub.gsp.example"
                       {[ "pending" := "node2" ]}), "state".
      split; [reflexivity|]. split; [|reflexivity].
      vm_compute. eauto.
Defined.

(** The selected server leaves; another resource leaving changes nothing. *)
Lemma unavailable_server_is_forgotten_witness :
  (exists i',
     Impl.handlePresence Examples.selected (Examples.leaves Examples.server)
     = Returns i'
     /\ Impl.HasFullServerJid i' = false)
  /\ Impl.handlePresence Examples.selected (Examples.leaves Examples.other)
     = Returns Examples.selected.
Proof.
  split.
  - destruct (proj1 (unavailable_server_is_forgotten Examples.parse
                       Examples.client Examples.selected
                       (Examples.leaves Examples.server) eq_refl) eq_refl)
      as (i' & H1 & _ & _ & H2 & _).
    exists i'. split; assumption.
  - apply (proj2 (unavailable_server_is_forgotten Examples.parse
                    Examples.client Examples.selected
                    (Examples.leaves Examples.other) eq_refl)).
    vm_compute. discriminate.
Defined.

(** ** Claims on the notification state *)

Section WaitForChangeClaims.
Import NotificationState.

Lemma ItemCallback_cases (s : NotificationState.t) (item : Item.t) :
  ItemCallback s item = s \/ hasState (ItemCallback s item) = true.
Proof.
  unfold ItemCallback. destruct (Item.findUpdate item) as [upd|]; [|now left].
  destruct (NotificationUpdate.IsValid upd); [|now left].
  simpl. case_bool_decide; [now right|now left].
Qed.

Lemma hasState_stays (items : list Item.t) (s : NotificationState.t) :
  hasState s = true -> hasState (foldl ItemCallback s items) = true.
Proof.
  revert s. induction items as [|item items IH]; intros s Hs; [exact Hs|].
  simpl. apply IH. destruct (ItemCallback_cases s item) as [->|H]; assumption.
Qed.

(** As long as [hasState] is false, no item has changed the instance. *)
Lemma without_state_unchanged (items : list Item.t) (s : NotificationState.t) :
  hasState (foldl ItemCallback s items) = false ->
  foldl ItemCallback s items = s.
Proof.
  revert s. induction items as [|item items IH]; intros s Hs; [reflexivity|].
  simpl in *. destruct (ItemCallback_cases s item) as [Heq|Ht].
  - rewrite Heq in *. now apply IH.
  - rewrite hasState_stays in Hs by exact Ht. discriminate.
Qed.

Lemma wait_for_bounds (bound : TimePoint) (w : Wait) :
  0 <= bound -> 0 <= wait_for bound w <= bound.
Proof. unfold wait_for. destruct (wakeup w); lia. Qed.

(** C6.  If a state has been received and its state id differs from the
    known id, [WaitForChange] returns the state without waiting.
    Otherwise it waits, for five seconds at most, and returns the state
    as it is after the items handled during the wait.  It returns in
    both cases and never throws. *)
Theorem wait_for_change_returns_or_waits
    (s : NotificationState.t) (known : Json) (w : Wait) :
  (hasState s = true ->
   NotificationType.ExtractStateId (notification s) (state s) <> known ->
   WaitForChange s known w = (Returns (state s), Immediately, s))
  /\ (hasState s = false
      \/ NotificationType.ExtractStateId (notification s) (state s) = known ->
      exists d,
        0 <= d <= 5000
        /\ WaitForChange s known w
           = (Returns (state (foldl ItemCallback s (items w))), After d,
              foldl ItemCallback s (items w))).
Proof.
  unfold WaitForChange. split.
  - intros Hs Hne. rewrite Hs.
    rewrite bool_decide_eq_true_2 by congruence. reflexivity.
  - intros Hcond. exists (wait_for WAITFORCHANGE_TIMEOUT w).
    split; [apply wait_for_bounds; unfold WAITFORCHANGE_TIMEOUT; lia|].
    destruct Hcond as [->|Heq]; [reflexivity|].
    rewrite bool_decide_eq_false_2 by (intros H; now apply H).
    now rewrite andb_false_r.
Qed.

(** C10.  An instance that has received no update so far, whatever
    items its callback has been given, does not return at once for any
    known id: it goes through the wait, for the whole five seconds when
    nothing wakes it.  If no update is accepted during the wait either,
    it returns the null value. *)
Theorem wait_without_state
    (n : NotificationType.t) (earlier : list Item.t) (known : Json) (w : Wait) :
  hasState (foldl ItemCallback (new n) earlier) = false ->
  (exists d,
     snd (fst (WaitForChange (foldl ItemCallback (new n) earlier) known w))
     = After d
     /\ 0 <= d <= 5000
     /\ (wakeup w = None -> d = 5000))
  /\ (hasState (foldl ItemCallback (foldl ItemCallback (new n) earlier)
                      (items w)) = false ->
      fst (fst (WaitForChange (foldl ItemCallback (new n) earlier) known w))
      = Returns JNull).
Proof.
  intros Hs. rewrite (without_state_unchanged _ _ Hs).
  unfold WaitForChange. cbn [new hasState andb fst snd]. split.
  - exists (wait_for WAITFORCHANGE_TIMEOUT w). split; [reflexivity|].
    split; [apply wait_for_bounds; unfold WAITFORCHANGE_TIMEOUT; lia|].
    unfold wait_for. now intros ->.
  - intros Hw. now rewrite (without_state_unchanged _ _ Hw).
Qed.

End WaitForChangeClaims.

(** The cached state has id 1: a caller that knows id 0 gets it at once,
    a caller that knows id 1 waits and gets the update that arrives. *)
Lemma wait_for_change_returns_or_waits_witness :
  NotificationState.WaitForChange Examples.cached (JInt 0) Examples.updated
  = (Returns Examples.state1, NotificationState.Immediately, Examples.cached)
  /\ exists d,
       0 <= d <= 5000
       /\ fst (NotificationState.WaitForChange Examples.cached (JInt 1)
                                               Examples.updated)
          = (Returns Examples.state2, NotificationState.After d).
Proof.
  split.
  - apply (proj1 (wait_for_change_returns_or_waits Examples.cached (JInt 0)
                    Examples.updated)); [reflexivity|].
    vm_compute. discriminate.
  - destruct (proj2 (wait_for_change_returns_or_waits Examples.cached (JInt 1)
                       Examples.updated)) as (d & Hd & Hw).
    + right. reflexivity.
    + exists d. split; [exact Hd|]. now rewrite Hw.
Defined.

(** A new instance that has only seen an update for another type: the
    caller waits five seconds and gets the null value. *)
Lemma wait_without_state_witness :
  NotificationState.hasState
    (foldl NotificationState.ItemCallback
           (NotificationState.new Examples.stateType)
           [Examples.update "pending" Examples.state1; Examples.empty_item])
  = false
  /\ fst (fst (NotificationState.WaitForChange
                 (foldl NotificationState.ItemCallback
                        (NotificationState.new Examples.stateType)
                        [Examples.update "pending" Examples.state1;
                         Examples.empty_item])
                 (JInt 7) Examples.silence))
     = Returns JNull.
Proof.
  split; [reflexivity|].
  apply (proj2 (wait_without_state Examples.stateType
                  [Examples.update "pending" Examples.state1;
                   Examples.empty_item]
                  (JInt 7) Examples.silence eq_refl)).
  reflexivity.
Defined.

(** ** Claims on the registration of notification types *)

Section RegistrationClaim.
Import Client.

(** C8.  [AddNotification] aborts in two cases and in no other: the
    implementation object exists, or a type of the same name is
    registered already.  When neither holds it returns, and the type is
    registered under its name. *)
Theorem add_notification_rejections (n : NotificationType.t) (c : Client.t) :
  (AddNotification n c = Aborts <->
   impl c <> None
   \/ is_Some (notifications c !! NotificationType.GetType n))
  /\ (impl c = None ->
      notifications c !! NotificationType.GetType n = None ->
      exists c',
        AddNotification n c = Returns c'
        /\ notifications c'
           = <[NotificationType.GetType n := n]> (notifications c)
        /\ notifications c' !! NotificationType.GetType n = Some n
        /\ impl c' = None).
Proof.
  unfold AddNotification. split; [split|].
  - destruct (impl c); [intros _; now left|].
    destruct (notifications c !! NotificationType.GetType n) eqn:Hn;
      [intros _; right; eauto|discriminate].
  - intros [Hi|[x Hx]].
    + destruct (impl c); [reflexivity|contradiction].
    + destruct (impl c); [reflexivity|]. now rewrite Hx.
  - intros Hi Hn. rewrite Hi, Hn. eexists. split; [reflexivity|].
    unfold notifications at 1 2. cbn [members ClientRef.notifications impl].
    split; [reflexivity|]. split; [apply lookup_insert_eq|reflexivity].
Qed.

End RegistrationClaim.

(** Registering [state] with a new client works once; the second time,
    and after [Connect], it aborts. *)
Lemma add_notification_rejections_witness :
  (exists c',
     Client.AddNotification Examples.stateType (Client.new "gsp.example")
     = Returns c'
     /\ Client.notifications c' !! "state" = Some Examples.stateType
     /\ Client.AddNotification Examples.stateType c' = Aborts)
  /\ Client.AddNotification Examples.stateType
       (Client.Connect Examples.parse (Client.new "gsp.example"))
     = Aborts.
Proof.
  split.
  - destruct (proj2 (add_notification_rejections Examples.stateType
                       (Client.new "gsp.example")) eq_refl eq_refl)
      as (c' & Hadd & _ & Hlook & _).
    exists c'. split; [exact Hadd|]. split; [exact Hlook|].
    apply (proj1 (add_notification_rejections Examples.stateType c')).
    right. exists Examples.stateType. exact Hlook.
  - apply (proj1 (add_notification_rejections Examples.stateType
                    (Client.Connect Examples.parse (Client.new "gsp.example")))).
    left. discriminate.
Defined.

(** ** Claims on the receive loop *)

Section ReceiveClaim.
Import gloox XmppClient.

(** C9.  [Receive] returns false when the network reports "not
    connected" or "stream closed", and the loop then ends; it returns
    true when the network reports no error, and the loop goes on to its
    next turn; on every other result it aborts, and so does the loop. *)
Theorem receive_classification (res : ConnectionError) :
  (res = ConnNotConnected \/ res = ConnStreamClosed ->
   Receive res = Returns false
   /\ forall rest, recvLoop (mkTurn false res :: rest) = Returns 1%nat)
  /\ (res = ConnNoError ->
      Receive res = Returns true
      /\ forall rest,
           recvLoop (mkTurn false res :: rest)
           = match recvLoop rest with
             | Returns n => Returns (S n)
             | r => r
             end)
  /\ (res <> ConnNotConnected -> res <> ConnStreamClosed ->
      res <> ConnNoError ->
      Receive res = Aborts
      /\ forall rest, recvLoop (mkTurn false res :: rest) = Aborts).
Proof.
  split; [|split].
  - intros [->| ->]; split; reflexivity.
  - intros ->; split; reflexivity.
  - intros H1 H2 H3. destruct res; try contradiction; split; reflexivity.
Qed.

End ReceiveClaim.

(** The three kinds of results of [recv], and a run of the loop that ends
    when the stream is closed. *)
Lemma receive_classification_witness :
  XmppClient.Receive gloox.ConnStreamClosed = Returns false
  /\ XmppClient.Receive gloox.ConnNoError = Returns true
  /\ XmppClient.Receive gloox.ConnIoError = Aborts
  /\ XmppClient.recvLoop
       [XmppClient.mkTurn false gloox.ConnNoError;
        XmppClient.mkTurn false gloox.ConnStreamClosed]
     = Returns 2%nat.
Proof.
  split; [|split; [|split]].
  - apply (proj1 (receive_classification gloox.ConnStreamClosed)). now right.
  - apply (proj1 (proj2 (receive_classification gloox.ConnNoError))).
    reflexivity.
  - apply (proj2 (proj2 (receive_classification gloox.ConnIoError)));
      discriminate.
  - rewrite (proj2 (proj1 (proj2 (receive_classification gloox.ConnNoError))
                      eq_refl)).
    rewrite (proj2 (proj1 (receive_classification gloox.ConnStreamClosed)
                      (or_intror eq_refl))).
    reflexivity.
Defined.

(** * Further properties of the code *)

(** ** Replies to a forwarded call *)

Section ReplyProperties.
Import OngoingRpcCall RpcResultHandler.
Context (parseJID : string -> gloox.JID.t).

(** X1.  When the reply that resolves a waiting forwarded call is a
    success response, the handler stores its result in the call and
    [ForwardMethod] returns that result. *)
Theorem forwarded_success_is_returned
    (client : ClientRef.t) (method : string) (params : Json)
    (sch : Impl.Schedule) (i i1 : Impl.t)
    (qs rest : list CallRound.t) (pre post : list IQ.t) (iq : IQ.t)
    (ext : RpcResponse.t) (clk : TimePoint) :
  Impl.TryEnsureFullServerJid parseJID client (Impl.entered sch)
                              (Impl.discovery sch) i = (Returns tt, i1) ->
  Impl.HasFullServerJid i1 = true ->
  Impl.replies sch = (qs ++ CallRound.mk (pre ++ iq :: post) clk :: rest)%list ->
  Forall (quiet (issuedCall client sch (Impl.fullServerJid i1))) qs ->
  state (handleAll (issuedCall client sch (Impl.fullServerJid i1)) pre)
    = WAITING ->
  carries iq ext ->
  RpcResponse.IsSuccess ext = true ->
  result (handleIqID (issuedCall client sch (Impl.fullServerJid i1)) iq)
    = RpcResponse.GetResult ext
  /\ fst (Impl.ForwardMethod parseJID client method params sch i)
     = Returns (RpcResponse.GetResult ext).
Proof.
  intros Hd Hf Hr Hq Hpre Hc Hs.
  set (call := issuedCall client sch (Impl.fullServerJid i1)) in *.
  assert (Hcall := handleIqID_success call iq ext eq_refl Hc Hs).
  split; [now rewrite Hcall|].
  rewrite (ForwardMethod_discovered parseJID client method params sch i i1 Hd Hf).
  cbn [fst]. fold call. rewrite Hr.
  rewrite awaitCall_resolving by (try assumption; now rewrite Hcall).
  now rewrite Hcall.
Qed.

(** X2.  The first IQ that moves a call out of [WAITING] decides it:
    the IQs handled after it leave the call as that IQ made it, and the
    wait ends with the same outcome whatever arrives later and whatever
    the clock shows. *)
Theorem first_resolution_is_final
    (call : OngoingRpcCall.t) (iq : IQ.t) (later : list IQ.t)
    (clk clk' : TimePoint) (rest rest' : list CallRound.t) :
  state (handleIqID call iq) <> WAITING ->
  handleAll call (iq :: later) = handleIqID call iq
  /\ awaitCall call (CallRound.mk (iq :: later) clk :: rest)
     = awaitCall call (CallRound.mk [iq] clk' :: rest').
Proof.
  intros Hres.
  assert (Hall : handleAll call (iq :: later) = handleIqID call iq).
  { change (handleAll call (iq :: later))
      with (handleAll (handleIqID call iq) later).
    now apply handleAll_not_waiting. }
  split; [exact Hall|].
  cbn [awaitCall CallRound.arrivals CallRound.clock]. rewrite Hall.
  change (handleAll call [iq]) with (handleIqID call iq).
  destruct (state (handleIqID call iq)); congruence.
Qed.

Lemma TryEnsureFullServerJid_returns (client : ClientRef.t) (now : TimePoint)
    (rounds : list PingRound.t) (i : Impl.t) :
  Impl.HasFullServerJid i = true
  \/ Exists (fun r => pingEnd client now i <= PingRound.after r) rounds ->
  exists i1,
    Impl.TryEnsureFullServerJid parseJID client now rounds i = (Returns tt, i1).
Proof.
  intros Hcond. unfold Impl.TryEnsureFullServerJid.
  destruct (Impl.HasFullServerJid i) eqn:Hf; [eauto|].
  destruct Hcond as [?|Hex]; [discriminate|].
  unfold pingEnd in Hex.
  destruct (Impl.lockPing i) as [p|]; cbn [fst snd];
    match goal with
    | |- context [Impl.waitForPong ?e ?r ?j] =>
        destruct (waitForPong_returns e r j Hex) as (i' & ->); eauto
    end.
Qed.

(** X3.  [ForwardMethod] is bounded by its two timeouts: if the clock
    reaches the end time of the ping during the discovery (or a server
    is selected already) and reaches the end time of the call during the
    wait for the reply, the call returns or throws. *)
Theorem forward_method_is_bounded
    (client : ClientRef.t) (method : string) (params : Json)
    (sch : Impl.Schedule) (i : Impl.t) :
  Impl.HasFullServerJid i = true
  \/ Exists (fun r => pingEnd client (Impl.entered sch) i <= PingRound.after r)
            (Impl.discovery sch) ->
  Exists (fun r => Impl.issued sch + ClientRef.timeout client
                   <= CallRound.clock r) (Impl.replies sch) ->
  (exists v, fst (Impl.ForwardMethod parseJID client method params sch i)
             = Returns v)
  \/ (exists e, fst (Impl.ForwardMethod parseJID client method params sch i)
                = Throws e).
Proof.
  intros Hd Hr.
  destruct (TryEnsureFullServerJid_returns client (Impl.entered sch)
              (Impl.discovery sch) i Hd) as (i1 & Hi1).
  destruct (Impl.HasFullServerJid i1) eqn:Hf.
  - rewrite (ForwardMethod_discovered parseJID client method params sch i i1
               Hi1 Hf). cbn [fst].
    pose proof (awaitCall_ends (issuedCall client sch (Impl.fullServerJid i1))
                  (Impl.replies sch) Hr) as Hnb.
    destruct (awaitCall_outcomes (Impl.replies sch)
                (issuedCall client sch (Impl.fullServerJid i1)) eq_refl)
      as [H|[H|[H|[(q & ext & _ & _ & _ & H)|(q & ext & _ & _ & _ & H)]]]];
      rewrite H in *; eauto. contradiction.
  - right. unfold Impl.ForwardMethod. rewrite Hi1, Hf. cbn. eauto.
Qed.

End ReplyProperties.

(** ** What the presence handler keeps *)

Section PresenceInvariants.
Import Impl.

Lemma samePing_refl (a : option SharedPing) : samePing a a.
Proof. destruct a; simpl; auto. Qed.

Lemma samePing_trans (a b c : option SharedPing) :
  samePing a b -> samePing b c -> samePing a c.
Proof.
  destruct a, b, c; simpl; try tauto. intros [? ?] [? ?]. split; congruence.
Qed.

Lemma notifyPing_ping (i : Impl.t) :
  samePing (ongoingPing i) (ongoingPing (notifyPing i)).
Proof.
  unfold notifyPing, lockPing. destruct (ongoingPing i) as [p|] eqn:Hp.
  - destruct (Nat.eqb (use_count p) 0); simpl; rewrite ?Hp; simpl; auto.
  - rewrite Hp. exact I.
Qed.


Lemma lockPing_same (a b : Impl.t) :
  ongoingPing a = ongoingPing b -> lockPing a = lockPing b.
Proof. unfold lockPing. now intros ->. Qed.

(** One presence: the handler returns, keeps the table of states, sends
    at most presences, and keeps the ping with its owners. *)
Lemma handlePresence_step (i : Impl.t) (p : Presence.t) :
  exists i' more,
    handlePresence i p = Returns i'
    /\ states i' = states i
    /\ sent i' = (sent i ++ more)%list
    /\ Forall (fun s => isRequest s = false /\ isPing s = false) more
    /\ samePing (ongoingPing i) (ongoingPing i').
Proof.
  destruct (Presence.subtype p) eqn:Hsub;
    try solve [exists i, []; unfold handlePresence; rewrite Hsub;
               rewrite app_nil_r; repeat split; auto using samePing_refl].
  - destruct (decide (accepted i p)) as [Ha|Hna].
    + destruct (HasFullServerJid i) eqn:Hf.
      * destruct Ha as (_ & Hp & Hl). exists (notifyPing i). exists [].
        unfold handlePresence. rewrite Hsub, Hp, Hl, Hf. cbn [negb].
        destruct (notifyPing_same i) as (_ & Hst & Hse).
        rewrite app_nil_r. repeat split; auto using notifyPing_ping.
      * pose proof Ha as (_ & Hp & Hl).
        destruct (selectServer_ok p i Hl) as (i1 & Hsel & _ & Hst & Hpi & Hse).
        exists (notifyPing i1).
        exists [PresenceStanza Presence.Available (Presence.from p)].
        unfold handlePresence. rewrite Hsub, Hp, Hl, Hf. cbn [negb].
        rewrite Hsel. destruct (notifyPing_same i1) as (_ & Hst1 & Hse1).
        split; [reflexivity|]. split; [congruence|]. split; [congruence|].
        split; [repeat constructor|].
        rewrite <- Hpi. apply notifyPing_ping.
    + exists i, []. rewrite handlePresence_rejected by assumption.
      rewrite app_nil_r. repeat split; auto using samePing_refl.
  - unfold handlePresence. rewrite Hsub.
    destruct (gloox.JID.eqb _ _); eexists; exists [];
      rewrite app_nil_r; repeat split; auto using samePing_refl.
Qed.

Lemma handlePresences_step (ps : list Presence.t) (i : Impl.t) :
  exists i' more,
    handlePresences i ps = Returns i'
    /\ states i' = states i
    /\ sent i' = (sent i ++ more)%list
    /\ Forall (fun s => isRequest s = false /\ isPing s = false) more
    /\ samePing (ongoingPing i) (ongoingPing i').
Proof.
  revert i. induction ps as [|p ps IH]; intros i; simpl.
  - exists i, []. rewrite app_nil_r. repeat split; auto using samePing_refl.
  - destruct (handlePresence_step i p) as (i1 & m1 & -> & Hst1 & Hse1 & Hf1 & Hp1).
    destruct (IH i1) as (i2 & m2 & -> & Hst2 & Hse2 & Hf2 & Hp2).
    exists i2, (m1 ++ m2)%list. split; [reflexivity|].
    split; [congruence|]. split; [now rewrite Hse2, Hse1, app_assoc|].
    split; [now apply Forall_app|]. eapply samePing_trans; eassumption.
Qed.

(** X4.  Whatever presences arrive, the handler never fails a [CHECK];
    it keeps the table of notification states, sends nothing but
    presences (no ping and no request), and leaves the ongoing ping with
    its end time and its owners. *)
Theorem presence_handler_keeps_invariants (ps : list Presence.t) (i : Impl.t) :
  exists i' more,
    handlePresences i ps = Returns i'
    /\ states i' = states i
    /\ sent i' = (sent i ++ more)%list
    /\ Forall (fun s => isRequest s = false /\ isPing s = false) more
    /\ samePing (ongoingPing i) (ongoingPing i').
Proof. apply handlePresences_step. Qed.

(** X5.  The ongoing ping is notified by the accepted presences and by
    no others: an accepted presence notifies the ping that can be locked,
    whether its sender is selected or not; a presence that is not
    accepted, a rejected pong among them, leaves [ongoingPing] as it is. *)
Theorem ping_is_woken_by_accepted_presences (i : Impl.t) (p : Presence.t) :
  (accepted i p ->
   exists i',
     handlePresence i p = Returns i'
     /\ forall pg,
          lockPing i = Some pg ->
          ongoingPing i'
          = Some (mkPing (TimedConditionVariable.Notify (ping pg)) (use_count pg)))
  /\ (~ accepted i p ->
      exists i', handlePresence i p = Returns i'
                 /\ ongoingPing i' = ongoingPing i).
Proof.
  split.
  - intros Ha. pose proof Ha as (Hsub & Hp & Hl).
    unfold handlePresence. rewrite Hsub, Hp, Hl.
    destruct (HasFullServerJid i) eqn:Hf; cbn [negb].
    + eexists. split; [reflexivity|]. intros pg Hpg.
      unfold notifyPing. now rewrite Hpg.
    + destruct (selectServer_ok p i Hl) as (i1 & -> & _ & _ & Hpi & _).
      eexists. split; [reflexivity|]. intros pg Hpg.
      unfold notifyPing. rewrite (lockPing_same i1 i Hpi), Hpg. reflexivity.
  - intros Hna. destruct (Presence.subtype p) eqn:Hsub;
      try (exists i; unfold handlePresence; rewrite Hsub; split; reflexivity).
    + exists i. now rewrite handlePresence_rejected.
    + unfold handlePresence. rewrite Hsub.
      destruct (gloox.JID.eqb _ _); eexists; split; reflexivity.
Qed.



End PresenceInvariants.

(** ** The discovery of the server *)

Section DiscoveryProperties.
Import Impl.
Context (parseJID : string -> gloox.JID.t).

Lemma handlePresences_rejected (ps : list Presence.t) (i : Impl.t) :
  Forall (fun q => Presence.subtype q = Presence.Available /\ ~ accepted i q) ps ->
  handlePresences i ps = Returns i.
Proof.
  induction 1 as [|q qs [Hq Hnq] _ IH]; [reflexivity|].
  simpl. now rewrite handlePresence_rejected.
Qed.

Lemma waitForPong_step (endTime : TimePoint) (rounds : list PingRound.t)
    (i : Impl.t) :
  exists more,
    states (snd (waitForPong endTime rounds i)) = states i
    /\ sent (snd (waitForPong endTime rounds i)) = (sent i ++ more)%list
    /\ Forall (fun s => isRequest s = false /\ isPing s = false) more
    /\ samePing (ongoingPing i) (ongoingPing (snd (waitForPong endTime rounds i))).
Proof.
  revert i. induction rounds as [|r rest IH]; intros i; cbn [waitForPong].
  - exists []. rewrite app_nil_r. repeat split; auto using samePing_refl.
  - assert (exists i' m,
              (if endTime <=? PingRound.before r then Returns i
               else handlePresences i (PingRound.presences r)) = Returns i'
              /\ states i' = states i
              /\ sent i' = (sent i ++ m)%list
              /\ Forall (fun s => isRequest s = false /\ isPing s = false) m
              /\ samePing (ongoingPing i) (ongoingPing i'))
      as (i' & m & -> & Hst & Hse & Hfa & Hpi).
    { destruct (endTime <=? PingRound.before r).
      - exists i, []. rewrite app_nil_r.
        repeat split; auto using samePing_refl.
      - apply handlePresences_step. }
    destruct (endTime <=? PingRound.after r); [cbn [snd]; eauto 6|].
    destruct (HasFullServerJid i'); [cbn [snd]; eauto 6|].
    destruct (IH i') as (m' & Hst' & Hse' & Hfa' & Hpi').
    exists (m ++ m')%list. split; [congruence|].
    split; [now rewrite Hse', Hse, app_assoc|].
    split; [now apply Forall_app|]. eapply samePing_trans; eassumption.
Qed.

(** The turns in which nobody gives an acceptable answer and the ping
    has not timed out. *)
Lemma waitForPong_unanswered (endTime : TimePoint) (qs rounds : list PingRound.t)
    (i : Impl.t) :
  HasFullServerJid i = false ->
  Forall (fun q =>
            Forall (fun p => Presence.subtype p = Presence.Available
                             /\ ~ accepted i p) (PingRound.presences q)
            /\ PingRound.after q < endTime) qs ->
  waitForPong endTime (qs ++ rounds) i = waitForPong endTime rounds i.
Proof.
  intros Hf. induction 1 as [|q qs [Hq Ha] _ IH]; [reflexivity|].
  cbn [waitForPong app]. rewrite (handlePresences_rejected _ _ Hq).
  replace (if endTime <=? PingRound.before q then Returns i else Returns i)
    with (Returns i) by now destruct (endTime <=? PingRound.before q).
  rewrite (proj2 (Z.leb_gt _ _) Ha), Hf. exact IH.
Qed.


(** X8.  A discovery without a ping under way that gets no acceptable
    answer, only pongs that are not accepted, returns when the clock has
    reached the end time of its ping: one ping has been sent, no server
    is selected, the ping is gone, and [ForwardMethod] throws the
    internal error for an undiscovered server without sending a request. *)
Theorem discovery_times_out
    (client : ClientRef.t) (method : string) (params : Json)
    (sch : Schedule) (i : Impl.t)
    (qs rest : list PingRound.t) (r : PingRound.t) :
  HasFullServerJid i = false ->
  lockPing i = None ->
  discovery sch = (qs ++ r :: rest)%list ->
  Forall (fun q =>
            Forall (fun p => Presence.subtype p = Presence.Available
                             /\ ~ accepted i p) (PingRound.presences q)
            /\ PingRound.after q < entered sch + ClientRef.timeout client) qs ->
  Forall (fun p => Presence.subtype p = Presence.Available /\ ~ accepted i p)
         (PingRound.presences r) ->
  entered sch + ClientRef.timeout client <= PingRound.after r ->
  TryEnsureFullServerJid parseJID client (entered sch) (discovery sch) i
  = (Returns tt,
     set_ongoingPing None
       (send (PingStanza (parseJID (ClientRef.serverJid client))) i))
  /\ ForwardMethod parseJID client method params sch i
     = (Throws (noServerError client),
        set_ongoingPing None
          (send (PingStanza (parseJID (ClientRef.serverJid client))) i)).
Proof.
  intros Hf Hl Hd Hqs Hr Hend.
  assert (Ht : TryEnsureFullServerJid parseJID client (entered sch)
                 (discovery sch) i
               = (Returns tt,
                  set_ongoingPing None
                    (send (PingStanza (parseJID (ClientRef.serverJid client))) i))).
  { unfold TryEnsureFullServerJid. rewrite Hf, Hl, Hd. cbn [fst snd].
    set (i0 := set_ongoingPing _ _).
    cbn [TimedConditionVariable.new TimedConditionVariable.endTime].
    rewrite (waitForPong_unanswered _ qs (r :: rest) i0 Hf Hqs).
    cbn [waitForPong].
    rewrite (handlePresences_rejected (PingRound.presences r) i0 Hr).
    replace (if _ <=? PingRound.before r then Returns i0 else Returns i0)
      with (Returns i0) by now destruct (_ <=? PingRound.before r).
    rewrite (proj2 (Z.leb_le _ _) Hend). reflexivity. }
  split; [exact Ht|].
  unfold ForwardMethod. rewrite Ht.
  change (HasFullServerJid (set_ongoingPing None (send _ i)))
    with (HasFullServerJid i).
  now rewrite Hf.
Qed.

(** X9.  A discovery that finds a ping under way joins it: it sends no
    ping of its own, it returns once the clock has reached the end time
    of that ping, and when it returns the ping has the owners it had
    before. *)
Theorem discovery_joins_ongoing_ping
    (client : ClientRef.t) (now : TimePoint) (rounds : list PingRound.t)
    (i : Impl.t) (pg : SharedPing) :
  HasFullServerJid i = false ->
  lockPing i = Some pg ->
  (exists more,
     sent (snd (TryEnsureFullServerJid parseJID client now rounds i))
     = (sent i ++ more)%list
     /\ Forall (fun s => isRequest s = false /\ isPing s = false) more)
  /\ (fst (TryEnsureFullServerJid parseJID client now rounds i) = Returns tt ->
      samePing (ongoingPing i)
               (ongoingPing (snd (TryEnsureFullServerJid parseJID client now
                                                         rounds i))))
  /\ (Exists (fun r => TimedConditionVariable.endTime (ping pg)
                       <= PingRound.after r) rounds ->
      fst (TryEnsureFullServerJid parseJID client now rounds i) = Returns tt).
Proof.
  intros Hf Hl.
  assert (Hpg : ongoingPing i = Some pg /\ use_count pg <> 0%nat).
  { unfold lockPing in Hl. destruct (ongoingPing i) as [q|]; [|discriminate].
    destruct (Nat.eqb_spec (use_count q) 0); [discriminate|].
    injection Hl as ->. now split. }
  destruct Hpg as [Hop Huse].
  split; [|split].
  - unfold TryEnsureFullServerJid. rewrite Hf, Hl. cbn [fst snd].
    match goal with
    | |- context [waitForPong ?e ?r ?j] =>
        destruct (waitForPong_step e r j) as (m & _ & Hm & Hfa & _);
        destruct (waitForPong e r j) as [[[]| | |] j'];
        cbn [snd] in *; rewrite ?releasePing_sent, Hm; exists m;
        (split; [now destruct i|exact Hfa])
    end.
  - unfold TryEnsureFullServerJid. rewrite Hf, Hl. cbn [fst snd].
    match goal with
    | |- context [waitForPong ?e ?r ?j] =>
        destruct (waitForPong_step e r j) as (m & _ & _ & _ & Hping);
        destruct (waitForPong e r j) as [[[]| | |] j'];
        cbn [fst snd] in *; try discriminate
    end.
    intros _. rewrite Hop. unfold releasePing.
    destruct (ongoingPing j') as [q|]; [|contradiction].
    destruct Hping as [Hu He]. cbn in Hu, He.
    rewrite <- Hu. destruct (use_count pg) as [|u] eqn:Hupg; [contradiction|].
    cbn. split; [exact Hupg|exact He].
  - intros Hex.
    destruct (TryEnsureFullServerJid_returns parseJID client now rounds i)
      as (i1 & ->); [|reflexivity].
    right. unfold pingEnd. now rewrite Hl.
Qed.

End DiscoveryProperties.

(** ** What a forwarded call and a resource query leave behind *)

Section SendProperties.
Import Impl.
Context (parseJID : string -> gloox.JID.t).

Lemma releasePing_rest (i : Impl.t) :
  states (releasePing i) = states i
  /\ fullServerJid (releasePing i) = fullServerJid i
  /\ subscribeCalls (releasePing i) = subscribeCalls i.
Proof.
  unfold releasePing. destruct (ongoingPing i) as [p|]; [|now repeat split].
  now destruct (use_count p <=? 1)%nat.
Qed.

(** The discovery sends no request and keeps the table of states. *)
Lemma TryEnsureFullServerJid_step (client : ClientRef.t) (now : TimePoint)
    (rounds : list PingRound.t) (i : Impl.t) :
  exists more,
    sent (snd (TryEnsureFullServerJid parseJID client now rounds i))
    = (sent i ++ more)%list
    /\ Forall (fun s => isRequest s = false) more
    /\ states (snd (TryEnsureFullServerJid parseJID client now rounds i))
       = states i.
Proof.
  unfold TryEnsureFullServerJid.
  destruct (HasFullServerJid i).
  { exists []. rewrite app_nil_r. now repeat split. }
  destruct (lockPing i) as [pg|]; cbn [fst snd];
    match goal with
    | |- context [waitForPong ?e ?r ?j] =>
        destruct (waitForPong_step e r j) as (m & Hst & Hm & Hfa & _);
        destruct (waitForPong e r j) as [[[]| | |] j'];
        cbn [snd] in *;
        rewrite ?releasePing_sent, ?(proj1 (releasePing_rest j')), Hm, Hst
    end;
    try (exists m; split; [now destruct i|];
         split; [eapply Forall_impl; [exact Hfa|now intros ? []]|now destruct i]);
    (exists (PingStanza (parseJID (ClientRef.serverJid client)) :: m);
     split; [destruct i; simpl; now rewrite <- app_assoc|];
     split; [constructor; [reflexivity|];
             eapply Forall_impl; [exact Hfa|now intros ? []]
            |now destruct i]).
Qed.

(** X10.  Whatever happens during a call of [ForwardMethod], it hands at
    most one request to the session, as the last stanza it sends, and
    the address of that request has a resource: no request goes to a
    bare address. *)
Theorem forward_sends_at_most_one_request
    (client : ClientRef.t) (method : string) (params : Json)
    (sch : Schedule) (i : Impl.t) :
  exists more,
    sent (snd (ForwardMethod parseJID client method params sch i))
    = (sent i ++ more)%list
    /\ (Forall (fun s => isRequest s = false) more
        \/ exists pre to,
             more = (pre ++ [RpcRequestStanza to method params])%list
             /\ Forall (fun s => isRequest s = false) pre
             /\ gloox.JID.resource to <> "").
Proof.
  unfold ForwardMethod.
  destruct (TryEnsureFullServerJid_step client (entered sch) (discovery sch) i)
    as (m & Hm & Hfa & _).
  destruct (TryEnsureFullServerJid _ _ _ _ _) as [[[]| | |] i1];
    cbn [snd] in *; try (exists m; split; [exact Hm|now left]).
  destruct (HasFullServerJid i1) eqn:Hf; cbn [negb snd].
  - exists (m ++ [RpcRequestStanza (fullServerJid i1) method params])%list.
    split; [unfold send; cbn [sent]; now rewrite Hm, app_assoc|].
    right. exists m, (fullServerJid i1). split; [reflexivity|].
    split; [exact Hfa|].
    unfold HasFullServerJid in Hf. apply negb_true_iff in Hf.
    now apply bool_decide_eq_false_1 in Hf.
  - exists m. split; [exact Hm|now left].
Qed.

(** X11.  [GetServerResource] never throws and never fails a [CHECK]:
    unless the schedule ends during the discovery, it returns the
    resource of the full server JID, which is the empty string exactly
    when no server is selected, and no subscribing thread is left
    unjoined. *)
Theorem get_server_resource_returns
    (client : ClientRef.t) (now : TimePoint) (rounds : list PingRound.t)
    (i : Impl.t) :
  fst (GetServerResource parseJID client now rounds i) = Blocked
  \/ exists res,
       fst (GetServerResource parseJID client now rounds i) = Returns res
       /\ res = gloox.JID.resource
                  (fullServerJid (snd (GetServerResource parseJID client now
                                                         rounds i)))
       /\ (res = "" <->
           HasFullServerJid (snd (GetServerResource parseJID client now
                                                    rounds i)) = false)
       /\ subscribeCalls (snd (GetServerResource parseJID client now rounds i))
          = [].
Proof.
  unfold GetServerResource.
  destruct (TryEnsureFullServerJid_outcomes parseJID client now rounds i)
    as [H|H];
    destruct (TryEnsureFullServerJid _ _ _ _ _) as [[[]| | |] i1];
    cbn [fst snd] in *; try discriminate; [|now left].
  right. eexists. split; [reflexivity|]. split; [reflexivity|].
  split; [|reflexivity].
  unfold HasFullServerJid, FinishSubscriptions. cbn.
  rewrite negb_false_iff. split; intros Hr.
  - now apply bool_decide_eq_true_2.
  - now apply bool_decide_eq_true_1 in Hr.
Qed.




End SendProperties.

(** ** The cached state of a notification type *)

Section CacheProperties.
Import NotificationState.

Lemma ItemCallback_accepted (s : NotificationState.t) (item : Item.t) :
  ItemCallback s item
  = match acceptedState (notification s) item with
    | Some st => mk (notification s) true st (S (notified s))
    | None => s
    end.
Proof.
  unfold ItemCallback, acceptedState.
  destruct (Item.findUpdate item) as [upd|]; [|reflexivity].
  destruct (NotificationUpdate.IsValid upd); [|reflexivity].
  cbn. now case_bool_decide.
Qed.

Lemma foldl_ItemCallback_notification (items : list Item.t)
    (s : NotificationState.t) :
  notification (foldl ItemCallback s items) = notification s.
Proof.
  revert s. induction items as [|item items IH]; intros s; [reflexivity|].
  simpl. rewrite IH, ItemCallback_accepted.
  now destruct (acceptedState (notification s) item).
Qed.

(** X14.  The instance of a notification type caches the state of the
    last item that its callback took, a valid update of that very type:
    whatever items have arrived since the construction, [state] is the
    state of the last such update, or null when there was none;
    [hasState] says whether there was one, and the waiters have been
    notified once for each. *)
Theorem state_is_last_accepted_update
    (n : NotificationType.t) (items : list Item.t) :
  state (foldl ItemCallback (new n) items)
  = default JNull (last (omap (acceptedState n) items))
  /\ hasState (foldl ItemCallback (new n) items)
     = bool_decide (omap (acceptedState n) items <> [])
  /\ notified (foldl ItemCallback (new n) items)
     = length (omap (acceptedState n) items).
Proof.
  induction items as [|item items IH] using rev_ind; [now repeat split|].
  destruct IH as (Hst & Hhas & Hnot).
  rewrite foldl_app, omap_app. cbn [foldl omap list_omap].
  rewrite ItemCallback_accepted, foldl_ItemCallback_notification.
  cbn [new notification].
  destruct (acceptedState n item) as [st|]; cbn [state hasState notified].
  - rewrite last_snoc, length_app. cbn. split; [reflexivity|].
    split; [|lia]. symmetry. apply bool_decide_eq_true_2.
    now destruct (omap (acceptedState n) items).
  - rewrite app_nil_r. now repeat split.
Qed.

(** X15.  The long poll: [WaitForChange] always returns the state of
    the instance as it is when the call ends; when it returns at once,
    the id of that state differs from the known id; and a caller that
    calls again with the id of the state it has got does not get an
    answer at once but goes through the wait. *)
Theorem long_poll_waits_for_news
    (s : NotificationState.t) (known : Json) (w w' : Wait) :
  fst (fst (WaitForChange s known w))
  = Returns (state (snd (WaitForChange s known w)))
  /\ (snd (fst (WaitForChange s known w)) = Immediately ->
      NotificationType.ExtractStateId (notification s)
        (state (snd (WaitForChange s known w))) <> known)
  /\ exists d,
       snd (fst (WaitForChange
                   (snd (WaitForChange s known w))
                   (NotificationType.ExtractStateId (notification s)
                      (state (snd (WaitForChange s known w))))
                   w'))
       = After d.
Proof.
  assert (Hn : notification (snd (WaitForChange s known w)) = notification s).
  { unfold WaitForChange. destruct (hasState s && _); cbn [snd]; [reflexivity|].
    apply foldl_ItemCallback_notification. }
  split; [|split].
  - unfold WaitForChange. now destruct (hasState s && _).
  - unfold WaitForChange.
    destruct (hasState s) eqn:Hs; cbn [andb]; [|discriminate].
    case_bool_decide as Hk; cbn [fst snd]; [|discriminate].
    intros _ Heq. now apply Hk.
  - set (s1 := snd (WaitForChange s known w)) in *.
    unfold WaitForChange at 1. rewrite Hn.
    rewrite (bool_decide_eq_false_2 (_ <> _)) by (intros H; now apply H).
    rewrite andb_false_r. cbn [fst snd]. eauto.
Qed.

End CacheProperties.

(** ** The life of a client *)

Section ClientProperties.
Import Client.
Context (parseJID : string -> gloox.JID.t).

(** X16.  [Disconnect] opens the registration again: after it a type
    whose name is not registered can be added, even if the client had
    been connected, and the next [Connect] gives every registered type,
    the new one included, a state that has received nothing. *)
Theorem disconnect_reopens_registration
    (n : NotificationType.t) (c : Client.t) :
  notifications c !! NotificationType.GetType n = None ->
  exists c' i,
    AddNotification n (Disconnect (Connect parseJID c)) = Returns c'
    /\ impl (Connect parseJID c') = Some i
    /\ Impl.states i !! NotificationType.GetType n
       = Some (NotificationState.new n)
    /\ (forall type t,
          notifications c !! type = Some t ->
          type <> NotificationType.GetType n ->
          Impl.states i !! type = Some (NotificationState.new t))
    /\ Impl.HasFullServerJid i
       = Impl.HasFullServerJid (Impl.new parseJID (members c)).
Proof.
  intros Hn. unfold Connect, Disconnect, AddNotification.
  cbn [impl members]. unfold notifications in *. cbn [members]. rewrite Hn.
  eexists. eexists. split; [reflexivity|]. cbn [impl members].
  split; [reflexivity|]. split; [|split]; [| |reflexivity].
  - rewrite new_states. cbn. now rewrite lookup_insert_eq.
  - intros type t Ht Hne. rewrite new_states. cbn.
    rewrite lookup_insert_ne by congruence. now rewrite Ht.
Qed.

Lemma TryEnsureFullServerJid_outcome_states (client : ClientRef.t)
    (now : TimePoint) (rounds : list PingRound.t) (i : Impl.t) :
  fst (Impl.TryEnsureFullServerJid parseJID client now rounds i) = Blocked
  \/ exists i1,
       Impl.TryEnsureFullServerJid parseJID client now rounds i = (Returns tt, i1)
       /\ Impl.states i1 = Impl.states i.
Proof.
  destruct (TryEnsureFullServerJid_step parseJID client now rounds i)
    as (m & _ & _ & Hst).
  destruct (TryEnsureFullServerJid_outcomes parseJID client now rounds i)
    as [H|H]; [|now left].
  right. destruct (Impl.TryEnsureFullServerJid _ _ _ _ _) as [[[]| | |] i1];
    cbn [fst snd] in *; try discriminate. eauto.
Qed.

(** X17.  For a connected client, whatever presences have been handled
    since [Connect], [WaitForChange] for a registered type never fails a
    [CHECK]: the type has its state in the implementation.  The call
    returns a state, throws the internal error for an undiscovered
    server, or is still waiting when the schedule ends, and it throws
    only if no server is selected afterwards. *)
Theorem wait_for_change_finds_its_state
    (c : Client.t) (ps : list Presence.t) (i : Impl.t)
    (type : string) (known : Json) (now : TimePoint)
    (rounds : list PingRound.t) (w : NotificationState.Wait) :
  is_Some (notifications c !! type) ->
  Impl.handlePresences (Impl.new parseJID (members c)) ps = Returns i ->
  fst (WaitForChange parseJID type known now rounds w (mk (members c) (Some i)))
  = Blocked
  \/ (exists v,
        fst (WaitForChange parseJID type known now rounds w
                           (mk (members c) (Some i))) = Returns v)
  \/ (fst (WaitForChange parseJID type known now rounds w
                         (mk (members c) (Some i)))
      = Throws (Impl.noServerError (members c))
      /\ forall i',
           impl (snd (WaitForChange parseJID type known now rounds w
                                    (mk (members c) (Some i)))) = Some i' ->
           Impl.HasFullServerJid i' = false).
Proof.
  intros [t Ht] Hps.
  assert (Hst : Impl.states i !! type = Some (NotificationState.new t)).
  { destruct (handlePresences_returns ps (Impl.new parseJID (members c)))
      as (i' & Hi' & Hs). rewrite Hps in Hi'. injection Hi' as <-.
    rewrite Hs, new_states. unfold notifications in Ht. now rewrite Ht. }
  unfold WaitForChange. cbn [impl members]. unfold notifications in *.
  cbn [members]. rewrite Ht. unfold Impl.WaitForChange.
  destruct (TryEnsureFullServerJid_outcome_states (members c) now rounds i)
    as [Hb|(i1 & Hi1 & Hs1)].
  - left. destruct (Impl.TryEnsureFullServerJid _ _ _ _ _) as [[[]| | |] i1];
      cbn [fst snd] in *; try discriminate. reflexivity.
  - rewrite Hi1. destruct (Impl.HasFullServerJid i1) eqn:Hf; cbn [negb fst snd].
    + right. left. rewrite Hs1, Hst. cbn [fst snd].
      unfold NotificationState.WaitForChange.
      destruct (_ && _); cbn [fst]; eauto.
    + right. right. split; [reflexivity|]. cbn [impl]. now intros i' [= <-].
Qed.

End ClientProperties.

(** ** Runs of the receive loop and repeated presences *)

Section LoopProperties.
Import gloox XmppClient.

(** X18.  The receive loop goes on as long as [recv] reports no error
    and the stop flag is down.  After [k] such turns it ends without a
    further call of [Receive] when the flag is up, ends after one more
    call when the session is not connected or the stream is closed, and
    aborts on any other result; it does not end by itself. *)
Theorem recv_loop_runs (k : nat) (res : ConnectionError) (rest : list Turn) :
  recvLoop (replicate k (mkTurn false ConnNoError)) = Blocked
  /\ recvLoop (replicate k (mkTurn false ConnNoError) ++ mkTurn true res :: rest)
     = Returns k
  /\ recvLoop (replicate k (mkTurn false ConnNoError) ++ mkTurn false res :: rest)
     = match res with
       | ConnNotConnected | ConnStreamClosed => Returns (S k)
       | ConnNoError =>
           match recvLoop rest with
           | Returns m => Returns (S k + m)%nat
           | r => r
           end
       | _ => Aborts
       end.
Proof.
  induction k as [|k (IH1 & IH2 & IH3)].
  - split; [reflexivity|]. split; [reflexivity|].
    cbn. destruct res; try reflexivity; now destruct (recvLoop rest).
  - cbn [replicate app recvLoop stopLoop recv Receive].
    rewrite IH1, IH2, IH3. split; [reflexivity|]. split; [reflexivity|].
    destruct res; try reflexivity; now destruct (recvLoop rest).
Qed.

(** X19.  Handling an unavailable presence a second time changes
    nothing: the full server JID is bare after the first, or the sender
    was not the selected server. *)
Theorem unavailable_is_idempotent (i : Impl.t) (p : Presence.t) :
  Presence.subtype p = Presence.Unavailable ->
  Impl.handlePresences i [p; p] = Impl.handlePresences i [p].
Proof.
  intros Hsub. cbn [Impl.handlePresences]. unfold Impl.handlePresence.
  rewrite Hsub.
  destruct (JID.eqb (Presence.from p) (Impl.fullServerJid i)) eqn:He.
  - cbn [Impl.fullServerJid Impl.set_fullServerJid].
    destruct (JID.eqb (Presence.from p) (JID.bareJID (Impl.fullServerJid i)));
      reflexivity.
  - rewrite He. reflexivity.
Qed.

End LoopProperties.

(** ** The further properties on the examples *)

(** The test of the unit tests for results: the server answers [echo]. *)
Lemma forwarded_success_is_returned_witness :
  carries Examples.hello (RpcResponse.success (JString "hello"))
  /\ fst (Impl.ForwardMethod Examples.parse Examples.client "echo"
            (JArray [JString "hello"]) (Examples.replied Examples.hello)
            Examples.selected)
     = Returns (JString "hello").
Proof.
  split; [repeat split|].
  apply (proj2 (forwarded_success_is_returned Examples.parse Examples.client
                  "echo" (JArray [JString "hello"])
                  (Examples.replied Examples.hello)
                  Examples.selected Examples.selected [] [] [] []
                  Examples.hello (RpcResponse.success (JString "hello")) 10
                  eq_refl eq_refl eq_refl (Forall_nil_2 _) eq_refl
                  (conj eq_refl (conj eq_refl eq_refl)) eq_refl)).
Defined.

(** A result, then an error and a service-unavailable error for the
    same call: the result stands. *)
Lemma first_resolution_is_final_witness :
  RpcResultHandler.handleAll Examples.call
    [Examples.hello; Examples.boom; Examples.gone]
  = RpcResultHandler.handleIqID Examples.call Examples.hello
  /\ awaitCall Examples.call
       [CallRound.mk [Examples.hello; Examples.boom; Examples.gone] 5000]
     = Returns (JString "hello").
Proof.
  assert (H : OngoingRpcCall.state
                (RpcResultHandler.handleIqID Examples.call Examples.hello)
              <> OngoingRpcCall.WAITING) by (vm_compute; discriminate).
  split.
  - apply (proj1 (first_resolution_is_final Examples.call Examples.hello
                    [Examples.boom; Examples.gone] 0 0 [] [] H)).
  - rewrite (proj2 (first_resolution_is_final Examples.call Examples.hello
                      [Examples.boom; Examples.gone] 5000 10 [] [] H)).
    reflexivity.
Defined.

(** The unanswered call ends when its second turn is at the end time. *)
Lemma forward_method_is_bounded_witness :
  (exists v, fst (Impl.ForwardMethod Examples.parse Examples.client "echo"
                    (JArray [JString "hello"]) Examples.unanswered
                    Examples.selected) = Returns v)
  \/ (exists e, fst (Impl.ForwardMethod Examples.parse Examples.client "echo"
                       (JArray [JString "hello"]) Examples.unanswered
                       Examples.selected) = Throws e).
Proof.
  apply (forward_method_is_bounded Examples.parse Examples.client "echo"
           (JArray [JString "hello"]) Examples.unanswered Examples.selected).
  - left. reflexivity.
  - apply Exists_cons_tl, Exists_cons_hd. cbn. unfold DEFAULT_TIMEOUT. lia.
Defined.

(** Three presences for the client that has registered [state]. *)
Lemma presence_handler_keeps_invariants_witness :
  exists i' more,
    Impl.handlePresences Examples.subscriber
      [Examples.plain_pong Examples.other;
       Examples.pong Examples.server {[ "state" := "node1" ]};
       Examples.leaves Examples.server]
    = Returns i'
    /\ Impl.states i' = Impl.states Examples.subscriber
    /\ Impl.sent i' = (Impl.sent Examples.subscriber ++ more)%list
    /\ Forall (fun s => isRequest s = false /\ isPing s = false) more
    /\ samePing (Impl.ongoingPing Examples.subscriber) (Impl.ongoingPing i').
Proof.
  apply (presence_handler_keeps_invariants
           [Examples.plain_pong Examples.other;
            Examples.pong Examples.server {[ "state" := "node1" ]};
            Examples.leaves Examples.server]
           Examples.subscriber).
Defined.

(** A pong wakes the thread that waits for the ping; a presence without
    a pong does not. *)
Lemma ping_is_woken_by_accepted_presences_witness :
  (exists i',
     Impl.handlePresence Examples.pinging (Examples.plain_pong Examples.server)
     = Returns i'
     /\ Impl.ongoingPing i'
        = Some (Impl.mkPing (TimedConditionVariable.mk 3000 1) 1))
  /\ (exists i',
        Impl.handlePresence Examples.pinging (Examples.no_pong Examples.server)
        = Returns i'
        /\ Impl.ongoingPing i' = Impl.ongoingPing Examples.pinging).
Proof.
  split.
  - destruct (proj1 (ping_is_woken_by_accepted_presences Examples.pinging
                       (Examples.plain_pong Examples.server)))
      as (i' & Hi' & Hp); [repeat split|].
    exists i'. split; [exact Hi'|]. apply (Hp _ eq_refl).
  - apply (proj2 (ping_is_woken_by_accepted_presences Examples.pinging
                    (Examples.no_pong Examples.server))).
    intros (_ & H & _). discriminate H.
Defined.



(** The only server that answers has no notifications: the discovery of
    the client that has registered [state] times out. *)
Lemma discovery_times_out_witness :
  Impl.ForwardMethod Examples.parse Examples.notifying "echo"
    (JArray [JString "hello"]) Examples.unsupported Examples.subscriber
  = (Throws (Error.mk ERROR_RPC_INTERNAL_ERROR
               "could not discover full server JID for gsp.example" JNull),
     Impl.send (PingStanza (Examples.parse "gsp.example")) Examples.subscriber).
Proof.
  apply (proj2 (discovery_times_out Examples.parse Examples.notifying "echo"
                  (JArray [JString "hello"]) Examples.unsupported
                  Examples.subscriber
                  [PingRound.mk 0 [Examples.plain_pong Examples.server] 100] []
                  Examples.silent eq_refl eq_refl eq_refl
                  ltac:(constructor; [|constructor]; split;
                        [|reflexivity];
                        constructor; [|constructor]; split; [reflexivity|];
                        intros (_ & _ & H); vm_compute in H; discriminate H)
                  (Forall_nil_2 _)
                  ltac:(vm_compute; discriminate))).
Defined.

(** A second caller joins the ping under way and leaves it with its one
    owner. *)
Lemma discovery_joins_ongoing_ping_witness :
  fst (Impl.TryEnsureFullServerJid Examples.parse Examples.client 1000
         [Examples.silent] Examples.pinging) = Returns tt
  /\ samePing (Impl.ongoingPing Examples.pinging)
       (Impl.ongoingPing
          (snd (Impl.TryEnsureFullServerJid Examples.parse Examples.client 1000
                  [Examples.silent] Examples.pinging))).
Proof.
  destruct (discovery_joins_ongoing_ping Examples.parse Examples.client 1000
              [Examples.silent] Examples.pinging
              (Impl.mkPing (TimedConditionVariable.new 0 DEFAULT_TIMEOUT) 1)
              eq_refl eq_refl) as (_ & Hs & H).
  assert (Hr := H ltac:(apply Exists_cons_hd; vm_compute; discriminate)).
  split; [exact Hr|exact (Hs Hr)].
Defined.

(** The echo call on the selected server sends its one request there. *)
Lemma forward_sends_at_most_one_request_witness :
  exists more,
    Impl.sent (snd (Impl.ForwardMethod Examples.parse Examples.client "echo"
                      (JArray [JString "hello"])
                      (Examples.replied Examples.hello) Examples.selected))
    = (Impl.sent Examples.selected ++ more)%list
    /\ (Forall (fun s => isRequest s = false) more
        \/ exists pre to,
             more = (pre ++ [RpcRequestStanza to "echo"
                                              (JArray [JString "hello"])])%list
             /\ Forall (fun s => isRequest s = false) pre
             /\ gloox.JID.resource to <> "").
Proof.
  apply (forward_sends_at_most_one_request Examples.parse Examples.client
           "echo" (JArray [JString "hello"]) (Examples.replied Examples.hello)
           Examples.selected).
Defined.

(** The resource query on the implementation that has started a
    subscribing thread, and on the one whose ping nobody answers. *)
Lemma get_server_resource_returns_witness :
  (fst (Impl.GetServerResource Examples.parse Examples.notifying 0 []
          Examples.subscribing) = Blocked
   \/ exists res,
        fst (Impl.GetServerResource Examples.parse Examples.notifying 0 []
               Examples.subscribing) = Returns res
        /\ res = gloox.JID.resource
                   (Impl.fullServerJid
                      (snd (Impl.GetServerResource Examples.parse
                              Examples.notifying 0 [] Examples.subscribing)))
        /\ (res = "" <->
            Impl.HasFullServerJid
              (snd (Impl.GetServerResource Examples.parse Examples.notifying 0
                      [] Examples.subscribing)) = false)
        /\ Impl.subscribeCalls
             (snd (Impl.GetServerResource Examples.parse Examples.notifying 0
                     [] Examples.subscribing)) = [])
  /\ fst (Impl.GetServerResource Examples.parse Examples.notifying 0 []
            Examples.subscribing) = Returns "srv"
  /\ fst (Impl.GetServerResource Examples.parse Examples.client 0
            [Examples.silent] Examples.fresh) = Returns "".
Proof.
  split; [|split; reflexivity].
  apply (get_server_resource_returns Examples.parse Examples.notifying 0 []
           Examples.subscribing).
Defined.



(** An update for another type, two updates for [state] and an item
    without an update: the cache holds the second state. *)
Lemma state_is_last_accepted_update_witness :
  NotificationState.state
    (foldl NotificationState.ItemCallback
           (NotificationState.new Examples.stateType)
           [Examples.update "pending" Examples.state2;
            Examples.update "state" Examples.state1;
            Examples.update "state" Examples.state2;
            Examples.empty_item])
  = Examples.state2.
Proof.
  rewrite (proj1 (state_is_last_accepted_update Examples.stateType
                    [Examples.update "pending" Examples.state2;
                     Examples.update "state" Examples.state1;
                     Examples.update "state" Examples.state2;
                     Examples.empty_item])).
  reflexivity.
Defined.

(** The caller that knows id 0 gets the cached state with id 1 at once;
    calling again with id 1 it waits. *)
Lemma long_poll_waits_for_news_witness :
  fst (fst (NotificationState.WaitForChange Examples.cached (JInt 0)
                                            Examples.silence))
  = Returns Examples.state1
  /\ exists d,
       snd (fst (NotificationState.WaitForChange Examples.cached (JInt 1)
                                                 Examples.updated))
       = NotificationState.After d.
Proof.
  destruct (long_poll_waits_for_news Examples.cached (JInt 0) Examples.silence
              Examples.updated) as (H1 & _ & H3).
  split; [exact H1|exact H3].
Defined.

(** A client that was connected without notifications registers
    [state] after [Disconnect]. *)
Lemma disconnect_reopens_registration_witness :
  exists c' i,
    Client.AddNotification Examples.stateType
      (Client.Disconnect (Client.Connect Examples.parse
                                         (Client.new "gsp.example")))
    = Returns c'
    /\ Client.impl (Client.Connect Examples.parse c') = Some i
    /\ Impl.states i !! "state"
       = Some (NotificationState.new Examples.stateType).
Proof.
  destruct (disconnect_reopens_registration Examples.parse Examples.stateType
              (Client.new "gsp.example") eq_refl)
    as (c' & i & H1 & H2 & H3 & _).
  exists c', i. split; [exact H1|]. split; [exact H2|exact H3].
Defined.

(** The connected client waits for [state] after a pong without
    notifications has been handled: no server is selected, and the
    call throws when its ping times out. *)
Lemma wait_for_change_finds_its_state_witness :
  fst (Client.WaitForChange Examples.parse "state" (JInt 0) 0
         [Examples.silent] Examples.silence
         (Client.mk Examples.notifying (Some Examples.subscriber)))
  <> Aborts.
Proof.
  destruct (wait_for_change_finds_its_state Examples.parse
              (Client.mk Examples.notifying None)
              [Examples.plain_pong Examples.server] Examples.subscriber
              "state" (JInt 0) 0 [Examples.silent] Examples.silence)
    as [H|[(v & H)|(H & _)]].
  - exists Examples.stateType. vm_compute. reflexivity.
  - reflexivity.
  - cbn [Client.members] in H. rewrite H. discriminate.
  - cbn [Client.members] in H. rewrite H. discriminate.
  - cbn [Client.members] in H. rewrite H. discriminate.
Defined.

(** Two turns without input, then the stream is closed; or the flag
    goes up. *)
Lemma recv_loop_runs_witness :
  XmppClient.recvLoop
    [XmppClient.mkTurn false gloox.ConnNoError;
     XmppClient.mkTurn false gloox.ConnNoError;
     XmppClient.mkTurn false gloox.ConnStreamClosed]
  = Returns 3%nat
  /\ XmppClient.recvLoop
       [XmppClient.mkTurn false gloox.ConnNoError;
        XmppClient.mkTurn false gloox.ConnNoError;
        XmppClient.mkTurn true gloox.ConnIoError]
     = Returns 2%nat.
Proof.
  split.
  - apply (proj2 (proj2 (recv_loop_runs 2 gloox.ConnStreamClosed []))).
  - apply (proj1 (proj2 (recv_loop_runs 2 gloox.ConnIoError []))).
Defined.

(** The selected server leaves twice. *)
Lemma unavailable_is_idempotent_witness :
  Impl.handlePresences Examples.selected
    [Examples.leaves Examples.server; Examples.leaves Examples.server]
  = Impl.handlePresences Examples.selected [Examples.leaves Examples.server].
Proof.
  apply (unavailable_is_idempotent Examples.selected
           (Examples.leaves Examples.server) eq_refl).
Defined.
